(** * Scrape-history and advice store (storage.py): a shallow embedding

    The development follows storage.py function by function.  Python
    strings are [string] (one [ascii] per character: the model covers
    ASCII text, on which [str.lower] and SQLite's LIKE agree), Python
    ints are [Z], the two SQLite tables are lists of rows in rowid
    order, and every store function is a computation in a small
    state-and-exception monad over the database and the thread-local
    current request id. *)

From Stdlib Require Import ZArith Ascii DecimalString.
From stdpp Require Import base list strings sorting.

Local Open Scope Z_scope.

(** ** Python string methods used by storage.py *)

Module Py.

Definition is_upper (c : ascii) : bool :=
  let n := nat_of_ascii c in (65 <=? n)%nat && (n <=? 90)%nat.

Definition lower_char (c : ascii) : ascii :=
  if is_upper c then ascii_of_nat (nat_of_ascii c + 32) else c.

(** [s.lower()] *)
Fixpoint lower (s : string) : string :=
  match s with
  | EmptyString => EmptyString
  | String c s' => String (lower_char c) (lower s')
  end.

(** [c.isspace()] on ASCII: TAB, LF, VT, FF, CR, FS, GS, RS, US, SPACE. *)
Definition isspace (c : ascii) : bool :=
  let n := nat_of_ascii c in
  ((9 <=? n)%nat && (n <=? 13)%nat) || ((28 <=? n)%nat && (n <=? 32)%nat).

Definition is_empty (s : string) : bool :=
  match s with EmptyString => true | String _ _ => false end.

Fixpoint lstrip_ws (s : string) : string :=
  match s with
  | EmptyString => EmptyString
  | String c s' => if isspace c then lstrip_ws s' else s
  end.

Fixpoint rstrip_ws (s : string) : string :=
  match s with
  | EmptyString => EmptyString
  | String c s' =>
      let r := rstrip_ws s' in
      if is_empty r && isspace c then EmptyString else String c r
  end.

(** [s.strip()] *)
Definition strip (s : string) : string := rstrip_ws (lstrip_ws s).

Fixpoint mem_char (c : ascii) (chars : string) : bool :=
  match chars with
  | EmptyString => false
  | String d chars' => Ascii.eqb c d || mem_char c chars'
  end.

(** [s.lstrip(chars)]: [chars] is a SET of characters; leading
    characters are dropped for as long as they belong to it. *)
Fixpoint lstrip (chars s : string) : string :=
  match s with
  | EmptyString => EmptyString
  | String c s' => if mem_char c chars then lstrip chars s' else s
  end.

(** [s[:n]] *)
Fixpoint slice_to (n : nat) (s : string) : string :=
  match n, s with
  | O, _ => EmptyString
  | S _, EmptyString => EmptyString
  | S n', String c s' => String c (slice_to n' s')
  end.

(** [s[n:]] *)
Fixpoint drop_chars (n : nat) (s : string) : string :=
  match n, s with
  | O, _ => s
  | S _, EmptyString => EmptyString
  | S n', String _ s' => drop_chars n' s'
  end.

(** [s.startswith(p)] *)
Fixpoint startswith (p s : string) : bool :=
  match p, s with
  | EmptyString, _ => true
  | String _ _, EmptyString => false
  | String a p', String b s' => Ascii.eqb a b && startswith p' s'
  end.

(** [needle in hay] *)
Fixpoint contains (needle hay : string) : bool :=
  startswith needle hay ||
  match hay with
  | EmptyString => false
  | String _ hay' => contains needle hay'
  end.

(** *** urllib.parse (Python standard library, not part of the repository)

    [urlsplit_netloc url] is [urlparse(url).netloc]: leading C0 control
    characters and spaces are stripped, TAB, CR and LF removed, a scheme
    is split off when the text before the first colon is a valid scheme,
    and the network location is what follows a leading [//] up to the
    first of [/], [?], [#].  [None] stands for the [ValueError] raised
    on unbalanced square brackets; the check of what stands between
    balanced brackets is not modelled. *)

Definition is_alpha (c : ascii) : bool :=
  let n := nat_of_ascii c in
  ((65 <=? n)%nat && (n <=? 90)%nat) || ((97 <=? n)%nat && (n <=? 122)%nat).

Definition is_digit (c : ascii) : bool :=
  let n := nat_of_ascii c in (48 <=? n)%nat && (n <=? 57)%nat.

Definition is_scheme_char (c : ascii) : bool :=
  is_alpha c || is_digit c || mem_char c "+-.".

Fixpoint lstrip_c0 (s : string) : string :=
  match s with
  | EmptyString => EmptyString
  | String c s' => if (nat_of_ascii c <=? 32)%nat then lstrip_c0 s' else s
  end.

Fixpoint remove_chars (chars s : string) : string :=
  match s with
  | EmptyString => EmptyString
  | String c s' =>
      if mem_char c chars then remove_chars chars s'
      else String c (remove_chars chars s')
  end.

(** What follows the first colon when all that precedes it is scheme
    characters. *)
Fixpoint after_scheme (s : string) : option string :=
  match s with
  | EmptyString => None
  | String c s' =>
      if Ascii.eqb c ":" then Some s'
      else if is_scheme_char c then after_scheme s'
      else None
  end.

Definition drop_scheme (url : string) : string :=
  match url with
  | EmptyString => EmptyString
  | String c _ =>
      if is_alpha c then
        match after_scheme url with Some rest => rest | None => url end
      else url
  end.

Fixpoint until_delim (s : string) : string :=
  match s with
  | EmptyString => EmptyString
  | String c s' => if mem_char c "/?#" then EmptyString else String c (until_delim s')
  end.

Definition urlsplit_netloc (url : string) : option string :=
  let url := remove_chars (String "009" (String "013" (String "010" EmptyString)))
                          (lstrip_c0 url) in
  match drop_scheme url with
  | String "/" (String "/" rest) =>
      let netloc := until_delim rest in
      if xorb (mem_char "[" netloc) (mem_char "]" netloc) then None
      else Some netloc
  | _ => Some EmptyString
  end.

(** Truthiness of [str | None]: [None] and the empty string are falsy. *)
Definition truthy (o : option string) : option string :=
  match o with
  | Some s => if is_empty s then None else Some s
  | None => None
  end.

(** [a or b] where [a : str | None] and [b : str]. *)
Definition or_else (a : option string) (b : string) : string :=
  match truthy a with Some s => s | None => b end.

End Py.

(** ** SQLite's LIKE operator

    [%] matches any run of characters, [_] exactly one, every other
    pattern character matches itself up to ASCII case. *)

Module Sql.

Fixpoint like (p : string) : string -> bool :=
  match p with
  | EmptyString => Py.is_empty
  | String c p' =>
      if Ascii.eqb c "%" then
        fix star (s : string) : bool :=
          like p' s ||
          match s with
          | EmptyString => false
          | String _ s' => star s'
          end
      else if Ascii.eqb c "_" then
        fun s => match s with
                 | EmptyString => false
                 | String _ s' => like p' s'
                 end
      else
        fun s => match s with
                 | EmptyString => false
                 | String d s' =>
                     Ascii.eqb (Py.lower_char c) (Py.lower_char d) && like p' s'
                 end
  end.

(** [column LIKE pattern] on a nullable column: NULL never matches. *)
Definition like_nullable (pattern : string) (column : option string) : bool :=
  match column with
  | Some s => like pattern s
  | None => false
  end.

Definition has_wildcard (s : string) : bool :=
  Py.mem_char "%" s || Py.mem_char "_" s.

End Sql.

(** ** Data model: the rows of the two tables and the step objects *)

Set Implicit Arguments.
Set Maximal Implicit Insertion.

(** One element of the [steps_json] array.  [Args] is the type of the
    tool-call argument dicts in their JSON form, on which
    [json.loads(json.dumps(steps, default=str))] gives [steps] back:
    the column is kept as the parsed list. *)
Module Step.
Record t (Args : Type) : Type := mk {
  step_id : Z;
  url : string;
  domain : string;
  tool_name : string;
  arguments : Args;
  arguments_json : string;
  result : string;
  result_summary : string;
  timestamp : string;
  led_to_data : option bool;
  evaluator_notes : option string
}.

(** [step["led_to_data"] = v] *)
Definition set_led_to_data {Args} (v : bool) (s : t Args) : t Args :=
  mk (step_id s) (url s) (domain s) (tool_name s) (arguments s)
     (arguments_json s) (result s) (result_summary s) (timestamp s)
     (Some v) (evaluator_notes s).

(** [step["evaluator_notes"] = v] *)
Definition set_evaluator_notes {Args} (v : string) (s : t Args) : t Args :=
  mk (step_id s) (url s) (domain s) (tool_name s) (arguments s)
     (arguments_json s) (result s) (result_summary s) (timestamp s)
     (led_to_data s) (Some v).

(** Two steps agree on every field that is fixed at append time. *)
Definition same_log_entry {Args} (a b : t Args) : Prop :=
  step_id a = step_id b /\ url a = url b /\ domain a = domain b /\
  tool_name a = tool_name b /\ arguments a = arguments b /\
  arguments_json a = arguments_json b /\ result a = result b /\
  result_summary a = result_summary b /\ timestamp a = timestamp b.
End Step.

(** A row of [scrape_requests]; [steps_json] is kept parsed. *)
Module Request.
Record t (Args : Type) : Type := mk {
  id : Z;
  prompt : string;
  domain : option string;
  steps_json : list (Step.t Args);
  final_result : option string;
  success : option Z;
  created_at : Z;
  updated_at : Z
}.
End Request.

(** A row of [scraping_advice]. *)
Module Advice.
Record t : Type := mk {
  id : Z;
  domain : string;
  advice : string;
  created_at : Z
}.
End Advice.

Record DB (Args : Type) : Type := mkDB {
  scrape_requests : list (Request.t Args);
  scraping_advice : list Advice.t
}.

(** The database file and the thread-local [_thread_local.request_id]. *)
Record World (Args : Type) : Type := mkWorld {
  db : DB Args;
  thread_request_id : option Z
}.

(** The clock readings of one call: [datetime.now().isoformat()] and
    SQLite's [datetime('now')] (seconds, so that text order is time order). *)
Record Clock : Type := mkClock {
  py_now : string;
  sql_now : Z
}.

(** The inputs of one [log_tool_call]. *)
Record ToolCall (Args : Type) : Type := mkToolCall {
  tc_clock : Clock;
  tc_url : string;
  tc_tool_name : string;
  tc_arguments : Args;
  tc_result : string
}.

(** The two [ValueError]s storage.py raises: "Scrape request {id} not
    found" and "Step {step_id} not found in request {id}". *)
Inductive Exception : Type :=
| NotFound (request_id : Z)
| OutOfRange (step_id request_id : Z).

Inductive Result (Args A : Type) : Type :=
| Returns (a : A) (w : World Args)
| Raises (e : Exception) (w : World Args).

Arguments Returns {Args A} a w.
Arguments Raises {Args A} e w.

Definition Store (Args A : Type) : Type := World Args -> Result Args A.

#[export] Instance store_ret {Args} : MRet (Store Args) :=
  fun A (a : A) w => Returns a w.

#[export] Instance store_bind {Args} : MBind (Store Args) :=
  fun A B (k : A -> Store Args B) (m : Store Args A) w =>
    match m w with
    | Returns a w' => k a w'
    | Raises e w' => Raises e w'
    end.

Definition raise {Args A} (e : Exception) : Store Args A :=
  fun w => Raises e w.

Definition world_of {Args A} (r : Result Args A) : World Args :=
  match r with Returns _ w => w | Raises _ w => w end.

(** ** SQL statements on the two tables *)

Section Statements.
Context {Args : Type}.

(** The rowid an INSERT into an AUTOINCREMENT table gets: one more than
    the largest rowid so far (no row is ever deleted). *)
Definition next_rowid (ids : list Z) : Z := 1 + foldr Z.max 0 ids.

Definition insert_request (r : Z -> Request.t Args) : Store Args Z :=
  fun w =>
    let rows := scrape_requests (db w) in
    let rid := next_rowid (map Request.id rows) in
    Returns rid (mkWorld (mkDB (rows ++ [r rid]) (scraping_advice (db w)))
                         (thread_request_id w)).

(** The first row with the given primary key, if any. *)
Definition find_request (request_id : Z) (rows : list (Request.t Args))
  : option (Request.t Args) :=
  List.find (fun r => Request.id r =? request_id) rows.

Definition lookup_request (request_id : Z) (w : World Args)
  : option (Request.t Args) :=
  find_request request_id (scrape_requests (db w)).

(** [SELECT ... FROM scrape_requests WHERE id = ?] followed by [fetchone()] *)
Definition select_request (request_id : Z) : Store Args (option (Request.t Args)) :=
  fun w => Returns (lookup_request request_id w) w.

(** The rows after [SET ... WHERE id = ?]: every row with that key is
    rewritten, the others stay as they are. *)
Definition set_where (request_id : Z) (set : Request.t Args -> Request.t Args)
    (rows : list (Request.t Args)) : list (Request.t Args) :=
  map (fun r => if Request.id r =? request_id then set r else r) rows.

(** [UPDATE scrape_requests SET ... WHERE id = ?] *)
Definition update_request (request_id : Z) (set : Request.t Args -> Request.t Args)
  : Store Args unit :=
  fun w =>
    Returns tt
      (mkWorld (mkDB (set_where request_id set (scrape_requests (db w)))
                     (scraping_advice (db w)))
               (thread_request_id w)).

Definition insert_advice (a : Z -> Advice.t) : Store Args Z :=
  fun w =>
    let rows := scraping_advice (db w) in
    let aid := next_rowid (map Advice.id rows) in
    Returns aid (mkWorld (mkDB (scrape_requests (db w)) (rows ++ [a aid]))
                         (thread_request_id w)).

(** [ORDER BY created_at DESC]: newest first. *)
Definition newest_first (a b : Request.t Args) : Prop :=
  Request.created_at b <= Request.created_at a.

Definition advice_newest_first (a b : Advice.t) : Prop :=
  Advice.created_at b <= Advice.created_at a.

#[export] Instance newest_first_dec : RelDecision newest_first.
Proof. intros a b. unfold newest_first. apply _. Defined.

#[export] Instance advice_newest_first_dec : RelDecision advice_newest_first.
Proof. intros a b. unfold advice_newest_first. apply _. Defined.

(** [SELECT ... FROM scrape_requests WHERE 1=1 [AND domain LIKE ?]
    ORDER BY created_at DESC LIMIT ?] followed by [fetchall()] *)
Definition select_requests (pattern : option string) (limit : Z)
  : Store Args (list (Request.t Args)) :=
  fun w =>
    let rows := scrape_requests (db w) in
    let matching :=
      match pattern with
      | Some p => List.filter (fun r => Sql.like_nullable p (Request.domain r)) rows
      | None => rows
      end in
    Returns (take (Z.to_nat limit) (merge_sort newest_first matching)) w.

(** [SELECT ... FROM scraping_advice [WHERE domain LIKE ?]
    ORDER BY created_at DESC LIMIT ?] followed by [fetchall()] *)
Definition select_advice (pattern : option string) (limit : Z)
  : Store Args (list Advice.t) :=
  fun w =>
    let rows := scraping_advice (db w) in
    let matching :=
      match pattern with
      | Some p => List.filter (fun a => Sql.like p (Advice.domain a)) rows
      | None => rows
      end in
    Returns (take (Z.to_nat limit) (merge_sort advice_newest_first matching)) w.

End Statements.

(** ** storage.py *)

Section Storage.
Context {Args : Type}.

(** [json.dumps(arguments, default=str)] *)
Variable json_dumps : Args -> string.

(** [urlparse(url).netloc]; [None] when [urlparse] raises. *)
Variable urlparse_netloc : string -> option string.

Definition _RESULT_SUMMARY_MAX : nat := 500.

Definition get_current_request_id : Store Args (option Z) :=
  fun w => Returns (thread_request_id w) w.

Definition set_current_request_id (request_id : option Z) : Store Args unit :=
  fun w => Returns tt (mkWorld (db w) request_id).

Definition _domain_from_url (url : string) : string :=
  match urlparse_netloc url with
  | Some netloc =>
      let stripped := Py.lstrip "www." (Py.lower netloc) in
      if Py.is_empty stripped then "(no domain)" else stripped
  | None => "(unknown)"
  end.

(** [CREATE TABLE IF NOT EXISTS] for both tables.  A database file
    without the tables is the world with two empty lists, so creating
    them changes nothing here; the legacy table [scrape_history] that
    [init_db] drops is outside the modelled state. *)
Definition init_db : Store Args unit := mret tt.

Definition start_scrape_request (clk : Clock) (prompt : string) : Store Args Z :=
  init_db;;
  request_id ← insert_request
    (fun rowid => Request.mk rowid prompt None [] None None (sql_now clk) (sql_now clk));
  set_current_request_id (Some request_id);;
  mret request_id.

(** [result[:_RESULT_SUMMARY_MAX] + ("..." if len(result) > _RESULT_SUMMARY_MAX else "")] *)
Definition summarize (result : string) : string :=
  Py.slice_to _RESULT_SUMMARY_MAX result +:+
  (if (_RESULT_SUMMARY_MAX <? String.length result)%nat then "..." else "").

(** The step dict of [log_tool_call], with [step_id] already filled in. *)
Definition new_step (clk : Clock) (url tool_name : string) (arguments : Args)
    (result : string) (step_id : Z) : Step.t Args :=
  Step.mk step_id url (_domain_from_url url) tool_name arguments
          (json_dumps arguments) result (summarize result) (py_now clk)
          None None.

(** Lines 176-180: the SELECT of [log_tool_call]. *)
Definition log_tool_call_select (request_id : Z)
  : Store Args (list (Step.t Args) * option string) :=
  row ← select_request request_id;
  match row with
  | None => raise (NotFound request_id)
  | Some r => mret (Request.steps_json r, Request.domain r)
  end.

(** Lines 182-188 and the SET clause of the UPDATE: the steps that were
    read, with the new step after them, and the domain, which is the one
    read unless that was NULL or empty. *)
Definition append_step (clk : Clock) (url tool_name : string) (arguments : Args)
    (result : string) (read : list (Step.t Args) * option string)
    (r : Request.t Args) : Request.t Args :=
  let '(steps, current_domain) := read in
  let step := new_step clk url tool_name arguments result (Z.of_nat (length steps)) in
  let steps := steps ++ [step] in
  let new_domain := Py.or_else current_domain (Step.domain step) in
  Request.mk (Request.id r) (Request.prompt r) (Some new_domain) steps
             (Request.final_result r) (Request.success r)
             (Request.created_at r) (sql_now clk).

(** Lines 190-197: the UPDATE of [log_tool_call]. *)
Definition log_tool_call_update (clk : Clock) (url tool_name : string)
    (arguments : Args) (result : string) (request_id : Z)
    (read : list (Step.t Args) * option string) : Store Args unit :=
  update_request request_id (append_step clk url tool_name arguments result read).

Definition log_tool_call (clk : Clock) (url tool_name : string) (arguments : Args)
    (result : string) (request_id : option Z) : Store Args unit :=
  init_db;;
  request_id ←
    match request_id with
    | Some r => mret r
    | None =>
        current ← get_current_request_id;
        match current with
        | Some r => mret r
        | None => start_scrape_request clk "(auto-created from tool call)"
        end
    end;
  read ← log_tool_call_select request_id;
  log_tool_call_update clk url tool_name arguments result request_id read.

(** The SET clause [update_request_final_result] builds from the
    arguments that are not [None]. *)
Definition set_final_result (clk : Clock) (final_result : option string)
    (success : option bool) (r : Request.t Args) : Request.t Args :=
  Request.mk (Request.id r) (Request.prompt r) (Request.domain r)
             (Request.steps_json r)
             (match final_result with
              | Some f => Some f
              | None => Request.final_result r
              end)
             (match success with
              | Some b => Some (if b then 1 else 0)
              | None => Request.success r
              end)
             (Request.created_at r) (sql_now clk).

Definition update_request_final_result (clk : Clock) (request_id : Z)
    (final_result : option string) (success : option bool) : Store Args unit :=
  init_db;;
  match final_result, success with
  | None, None => mret tt
  | _, _ => update_request request_id (set_final_result clk final_result success)
  end.

(** The two in-place assignments on [steps[step_id]]. *)
Definition set_outcome (led_to_data : option bool) (evaluator_notes : option string)
    (s : Step.t Args) : Step.t Args :=
  let s := match led_to_data with
           | Some v => Step.set_led_to_data v s
           | None => s
           end in
  match evaluator_notes with
  | Some v => Step.set_evaluator_notes v s
  | None => s
  end.

(** [SET steps_json = ?, updated_at = datetime('now')] *)
Definition set_steps (clk : Clock) (steps : list (Step.t Args))
    (r : Request.t Args) : Request.t Args :=
  Request.mk (Request.id r) (Request.prompt r) (Request.domain r) steps
             (Request.final_result r) (Request.success r)
             (Request.created_at r) (sql_now clk).

Definition update_step_outcome (clk : Clock) (request_id step_id : Z)
    (led_to_data : option bool) (evaluator_notes : option string)
  : Store Args unit :=
  init_db;;
  match led_to_data, evaluator_notes with
  | None, None => mret tt
  | _, _ =>
      row ← select_request request_id;
      match row with
      | None => raise (NotFound request_id)
      | Some r =>
          let steps := Request.steps_json r in
          if (step_id <? 0) || (Z.of_nat (length steps) <=? step_id)
          then raise (OutOfRange step_id request_id)
          else
            let steps :=
              alter (set_outcome led_to_data evaluator_notes) (Z.to_nat step_id) steps in
            update_request request_id (set_steps clk steps)
      end
  end.

(** [(domain or "").strip().lower() if domain else None] *)
Definition clean_domain_filter (domain : option string) : option string :=
  match Py.truthy domain with
  | Some d => Some (Py.lower (Py.strip d))
  | None => None
  end.

(** [max(1, min(limit, 500))] *)
Definition clamp_limit (limit : Z) : Z := Z.max 1 (Z.min limit 500).

(** [f"%{domain}%"] when the cleaned filter is truthy. *)
Definition like_pattern (domain : option string) : option string :=
  match Py.truthy domain with
  | Some d => Some ("%" +:+ d +:+ "%")
  | None => None
  end.

(** [any(url_contains.lower() in s.get("url", "").lower() for s in steps)] *)
Definition has_matching_step (url_contains : string) (steps : list (Step.t Args)) : bool :=
  match List.filter
          (fun s => Py.contains (Py.lower url_contains) (Py.lower (Step.url s)))
          steps with
  | [] => false
  | _ :: _ => true
  end.

Definition search_history (domain url_contains : option string) (limit : Z)
  : Store Args (list (Request.t Args)) :=
  init_db;;
  let domain := clean_domain_filter domain in
  let url_contains := Py.truthy (Some (Py.strip (Py.or_else url_contains ""))) in
  let limit := clamp_limit limit in
  rows ← select_requests (like_pattern domain) limit;
  mret (List.filter
          (fun row =>
             match url_contains with
             | Some u => has_matching_step u (Request.steps_json row)
             | None => true
             end)
          rows).

Definition add_advice (clk : Clock) (domain advice : string) : Store Args Z :=
  init_db;;
  let domain := Py.lstrip "www." (Py.lower (Py.strip domain)) in
  insert_advice (fun rowid => Advice.mk rowid domain advice (sql_now clk)).

Definition get_advice (domain : option string) (limit : Z) : Store Args (list Advice.t) :=
  init_db;;
  let domain := clean_domain_filter domain in
  let limit := clamp_limit limit in
  select_advice (like_pattern domain) limit.

Definition get_advice_for_domain (domain : string) : Store Args string :=
  let domain := Py.lstrip "www." (Py.lower (Py.strip domain)) in
  advice_list ← get_advice (Some domain) 10;
  match advice_list with
  | [] => mret ""
  | _ :: _ =>
      let advice_texts := map Advice.advice advice_list in
      mret ("[Advice for " +:+ domain +:+ ": " +:+ String.concat "; " advice_texts +:+ "]")
  end.

(** ** Sequences of calls, and the store as a whole *)

Definition log_call (c : ToolCall Args) (request_id : option Z) : Store Args unit :=
  log_tool_call (tc_clock c) (tc_url c) (tc_tool_name c) (tc_arguments c)
                (tc_result c) request_id.

(** The calls of a list, one after the other, against one request. *)
Fixpoint log_all (request_id : Z) (calls : list (ToolCall Args)) : Store Args unit :=
  match calls with
  | [] => mret tt
  | c :: calls' => log_call c (Some request_id);; log_all request_id calls'
  end.

(** One call of a public function of storage.py. *)
Inductive Op : Type :=
| OpSetCurrent (request_id : option Z)
| OpStart (clk : Clock) (prompt : string)
| OpLog (c : ToolCall Args) (request_id : option Z)
| OpFinalResult (clk : Clock) (request_id : Z) (final_result : option string)
                (success : option bool)
| OpStepOutcome (clk : Clock) (request_id step_id : Z) (led_to_data : option bool)
                (evaluator_notes : option string)
| OpSearch (domain url_contains : option string) (limit : Z)
| OpAddAdvice (clk : Clock) (domain advice : string)
| OpGetAdvice (domain : option string) (limit : Z)
| OpAdviceForDomain (domain : string).

(** The world a call leaves behind, whether it returns or raises. *)
Definition exec (op : Op) (w : World Args) : World Args :=
  match op with
  | OpSetCurrent r => world_of (set_current_request_id r w)
  | OpStart clk p => world_of (start_scrape_request clk p w)
  | OpLog c r => world_of (log_call c r w)
  | OpFinalResult clk r f s => world_of (update_request_final_result clk r f s w)
  | OpStepOutcome clk r i l n => world_of (update_step_outcome clk r i l n w)
  | OpSearch d u l => world_of (search_history d u l w)
  | OpAddAdvice clk d a => world_of (add_advice clk d a w)
  | OpGetAdvice d l => world_of (get_advice d l w)
  | OpAdviceForDomain d => world_of (get_advice_for_domain d w)
  end.

(** Any number of calls, one after the other. *)
Fixpoint exec_all (ops : list Op) (w : World Args) : World Args :=
  match ops with
  | [] => w
  | op :: ops' => exec_all ops' (exec op w)
  end.

(** Every step carries its own position. *)
Definition well_indexed (steps : list (Step.t Args)) : Prop :=
  forall (i : nat) (s : Step.t Args), steps !! i = Some s -> Step.step_id s = Z.of_nat i.

(** [new] keeps every step of [old] at its position, up to the two
    outcome fields, and may have more steps after them. *)
Definition grows_in_place (old new : list (Step.t Args)) : Prop :=
  exists kept added,
    new = kept ++ added /\ Forall2 Step.same_log_entry old kept.

(** ** Interleaved calls of [log_tool_call]

    [log_tool_call] issues two SQL statements on its connection, the
    SELECT and the UPDATE, and takes no lock of its own around them.
    A schedule names, step by step, which call runs its next statement. *)

Inductive Phase : Type :=
| NotStarted
| HasRead (read : list (Step.t Args) * option string)
| Finished
| Failed (e : Exception).

Definition advance (request_id : Z) (c : ToolCall Args) (ph : Phase) (w : World Args)
  : Phase * World Args :=
  match ph with
  | NotStarted =>
      match log_tool_call_select request_id w with
      | Returns read w' => (HasRead read, w')
      | Raises e w' => (Failed e, w')
      end
  | HasRead read =>
      match log_tool_call_update (tc_clock c) (tc_url c) (tc_tool_name c)
                                 (tc_arguments c) (tc_result c) request_id read w with
      | Returns _ w' => (Finished, w')
      | Raises e w' => (Failed e, w')
      end
  | Finished => (Finished, w)
  | Failed e => (Failed e, w)
  end.

Fixpoint run_schedule (request_id : Z) (calls : list (ToolCall Args)) (schedule : list nat)
    (phases : list Phase) (w : World Args) : list Phase * World Args :=
  match schedule with
  | [] => (phases, w)
  | i :: schedule' =>
      match calls !! i, phases !! i with
      | Some c, Some ph =>
          let '(ph', w') := advance request_id c ph w in
          run_schedule request_id calls schedule' (<[i := ph']> phases) w'
      | _, _ => run_schedule request_id calls schedule' phases w
      end
  end.

(** Call [k], then call [k+1], ...: each runs both statements before the
    next one starts. *)
Fixpoint serial_from (k n : nat) : list nat :=
  match n with
  | O => []
  | S n' => k :: k :: serial_from (S k) n'
  end.

Definition serial (n : nat) : list nat := serial_from 0 n.

(** The schedules of [n] calls: every call runs its two statements, in
    any order relative to the other calls. *)
Definition is_interleaving (n : nat) (schedule : list nat) : Prop :=
  schedule ≡ₚ serial n.

(** The steps a request holds after a schedule has run. *)
Definition steps_after (request_id : Z) (calls : list (ToolCall Args)) (schedule : list nat)
    (w : World Args) : option (list (Step.t Args)) :=
  Request.steps_json <$>
    lookup_request request_id
      (snd (run_schedule request_id calls schedule
                         (replicate (length calls) NotStarted) w)).

(** ** The normalisation the specification describes

    "lowercase, [www.] prefix stripped": the hostname lowercased, with
    one leading literal [www.] removed when it is there. *)
Definition spec_normalized_domain (hostname : string) : string :=
  let h := Py.lower hostname in
  if Py.startswith "www." h then Py.drop_chars 4 h else h.

(** The steps [log_all] adds after [n] existing ones. *)
Definition logged_steps (n : nat) (calls : list (ToolCall Args)) : list (Step.t Args) :=
  imap (fun i c => new_step (tc_clock c) (tc_url c) (tc_tool_name c)
                            (tc_arguments c) (tc_result c) (Z.of_nat (n + i)))
       calls.

(** The domain of a request after [log_all]. *)
Definition logged_domain (current : option string) (calls : list (ToolCall Args))
  : option string :=
  match calls with
  | [] => current
  | c :: _ => Some (Py.or_else current (_domain_from_url (tc_url c)))
  end.

(** What an observer of one request sees across a call: the request is
    still there, its steps have only grown in place and are indexed by
    position if they were, and its prompt and an already set domain are
    the same. *)
Definition request_kept (r r' : Request.t Args) : Prop :=
  grows_in_place (Request.steps_json r) (Request.steps_json r') /\
  (well_indexed (Request.steps_json r) -> well_indexed (Request.steps_json r')) /\
  Request.prompt r' = Request.prompt r /\
  (forall d, Request.domain r = Some d -> Py.is_empty d = false ->
             Request.domain r' = Some d).

(** ** Small stores and calls for the examples

    In the examples the tool arguments are given by their JSON text,
    and URLs are parsed by [Py.urlsplit_netloc]. *)

Definition demo_dumps (arguments : string) : string := arguments.

Definition demo_clock : Clock := mkClock "2026-01-01T00:00:00" 100.

Definition empty_world : World string := mkWorld (mkDB [] []) None.

(** The row [start_scrape_request] inserts into an empty table. *)
Definition fresh_request : Request.t string :=
  Request.mk 1 "scrape foo" None [] None None 100 100.

Definition fresh_world : World string :=
  mkWorld (mkDB [fresh_request] []) (Some 1).

Definition call_a : ToolCall string :=
  mkToolCall demo_clock "https://Example.com/a" "http_request" "{}" "<html>a</html>".

Definition call_b : ToolCall string :=
  mkToolCall demo_clock "https://other.org/b" "playwright_get_content" "{}"
             "<html>b</html>".

Definition step_a : Step.t string :=
  Step.mk 0 "https://Example.com/a" "example.com" "http_request" "{}" "{}"
          "<html>a</html>" "<html>a</html>" "2026-01-01T00:00:00" None None.

Definition step_b : Step.t string :=
  Step.mk 1 "https://other.org/b" "other.org" "playwright_get_content" "{}" "{}"
          "<html>b</html>" "<html>b</html>" "2026-01-01T00:00:00" None None.

(** [fresh_request] after [call_a] and then [call_b]. *)
Definition logged_request : Request.t string :=
  Request.mk 1 "scrape foo" (Some "example.com") [step_a; step_b] None None 100 100.

Definition logged_world : World string :=
  mkWorld (mkDB [logged_request] []) (Some 1).

(** ['x' * n] *)
Fixpoint repeat_x (n : nat) : string :=
  match n with
  | O => ""
  | S n' => String "x" (repeat_x n')
  end.

(** The calls of a list, one after the other, each with [request_id]
    omitted. *)
Fixpoint log_all_ambient (calls : list (ToolCall Args)) : Store Args unit :=
  match calls with
  | [] => mret tt
  | c :: calls' => log_call c None;; log_all_ambient calls'
  end.

(** ** What holds of every stored request

    A step as [log_tool_call] builds it: its derived fields are the
    ones computed from its [url], [arguments] and [result]. *)
Definition step_ok (s : Step.t Args) : Prop :=
  Step.domain s = _domain_from_url (Step.url s) /\
  Step.arguments_json s = json_dumps (Step.arguments s) /\
  Step.result_summary s = summarize (Step.result s).

(** The domain of the first step, if there is one. *)
Definition first_domain (steps : list (Step.t Args)) : option string :=
  match steps with
  | [] => None
  | s :: _ => Some (Step.domain s)
  end.

Definition request_ok (r : Request.t Args) : Prop :=
  well_indexed (Request.steps_json r) /\
  Forall step_ok (Request.steps_json r) /\
  Request.domain r = first_domain (Request.steps_json r).

(** Primary keys are positive and distinct in both tables, and every
    request is as [request_ok] says. *)
Definition store_ok (w : World Args) : Prop :=
  NoDup (map Request.id (scrape_requests (db w))) /\
  Forall (fun r => 1 <= Request.id r) (scrape_requests (db w)) /\
  Forall request_ok (scrape_requests (db w)) /\
  NoDup (map Advice.id (scraping_advice (db w))) /\
  Forall (fun a => 1 <= Advice.id a) (scraping_advice (db w)).

(** The store of a new database file, in a thread that has set no
    current request. *)
Definition new_world : World Args := mkWorld (mkDB [] []) None.

(** ** The tool adapters over the store (tools/history_tools.py,
    tools/advice_tools.py)

    The bodies of the decorated functions; texts that are not ASCII
    stand as their UTF-8 bytes. *)

(** How SQLite prints a [created_at] value: the text of
    [datetime('now')]. *)
Variable datetime_text : Z -> string.

(** [str(n)] for an int *)
Definition str_int (n : Z) : string := NilZero.string_of_int (Z.to_int n).

Definition newline : string := String "010" EmptyString.

Definition mark_scrape_step_outcome (clk : Clock) (request_id step_id : Z)
    (led_to_data : bool) (notes : option string) : Store Args string :=
  update_step_outcome clk request_id step_id (Some led_to_data) notes;;
  let label := if led_to_data then "helpful" else "not helpful" in
  mret ("Updated request " +:+ str_int request_id +:+ ", step " +:+ str_int step_id
        +:+ " as " +:+ label +:+ "."
        +:+ match Py.truthy notes with
            | Some n => " Notes: " +:+ n
            | None => ""
            end).

(** [f"- [{a['created_at']}] {a['domain']}: {a['advice']}"] *)
Definition advice_line (a : Advice.t) : string :=
  "- [" +:+ datetime_text (Advice.created_at a) +:+ "] " +:+ Advice.domain a
  +:+ ": " +:+ Advice.advice a.

Definition get_scraping_advice (domain : option string) (limit : Z)
  : Store Args string :=
  let limit := Z.max 1 (Z.min limit 100) in
  advice_list ← get_advice domain limit;
  match advice_list with
  | [] =>
      mret ("No scraping advice found."
            +:+ match Py.truthy domain with
                | Some d => " (domain like '" +:+ d +:+ "')"
                | None => ""
                end)
  | _ :: _ =>
      mret ("Scraping advice:" +:+ newline +:+ newline
            +:+ String.concat newline (map advice_line advice_list))
  end.

(** The first line [search_scrape_history] prints for a step: index,
    tool, URL, time, outcome label and, when there are any, the notes. *)
Definition step_headline (s : Step.t Args) : string :=
  let outcome_str :=
    match Step.led_to_data s with
    | None => "unknown"
    | Some true => "helpful"
    | Some false => "not helpful"
    end in
  let notes := Py.or_else (Step.evaluator_notes s) "" in
  let notes_part := if Py.is_empty notes then "" else " | notes=" +:+ notes in
  "    [" +:+ str_int (Step.step_id s) +:+ "] " +:+ Step.tool_name s +:+ " | "
  +:+ Step.url s +:+ " | " +:+ Step.timestamp s +:+ " | outcome=" +:+ outcome_str
  +:+ notes_part.

(** The three lines [search_scrape_history] prints for a step. *)
Definition step_lines (s : Step.t Args) : list string :=
  let summary :=
    Py.slice_to 150 (Step.result_summary s)
    +:+ (if (150 <? String.length (Step.result_summary s))%nat then "..." else "") in
  [ step_headline s;
    "      args: " +:+ Step.arguments_json s;
    "      result: " +:+ summary ].

(** The lines [search_scrape_history] prints for a request, the blank
    line after it included. *)
Definition request_lines (req : Request.t Args) : list string :=
  let domain_val := Py.or_else (Request.domain req) "(unknown)" in
  let success_str :=
    match Request.success req with
    | Some v => if v =? 1 then "✅ Success"
                else if v =? 0 then "❌ Failed"
                else "⏳ Unknown"
    | None => "⏳ Unknown"
    end in
  let steps := Request.steps_json req in
  [ "Request #" +:+ str_int (Request.id req) +:+ ": " +:+ Request.prompt req;
    "  Domain: " +:+ domain_val +:+ " | Status: " +:+ success_str
    +:+ " | Created: " +:+ datetime_text (Request.created_at req) ]
  ++ match Py.truthy (Request.final_result req) with
     | Some final_result =>
         [ "  Final result: "
           +:+ (if (200 <? String.length final_result)%nat
                then Py.slice_to 200 final_result +:+ "..."
                else final_result) ]
     | None => []
     end
  ++ match steps with
     | [] => [ "  Steps: (none)" ]
     | _ :: _ =>
         ("  Steps (" +:+ str_int (Z.of_nat (length steps)) +:+ " tool calls):")
         :: flat_map step_lines steps
     end
  ++ [ "" ].

Definition search_scrape_history (domain url_contains : option string) (limit : Z)
  : Store Args string :=
  let limit := Z.max 1 (Z.min limit 100) in
  requests ← search_history domain url_contains limit;
  match requests with
  | [] =>
      mret ("No scrape history found."
            +:+ match Py.truthy domain, Py.truthy url_contains with
                | None, None => ""
                | _, _ =>
                    " (domain like '" +:+ Py.or_else domain "any"
                    +:+ "', url containing '" +:+ Py.or_else url_contains "any"
                    +:+ "')"
                end)
  | _ :: _ =>
      mret ("Scrape history (one row per prompt, steps as array):"
            +:+ newline +:+ newline
            +:+ Py.rstrip_ws (String.concat newline (flat_map request_lines requests)))
  end.

(** Some character of the text is not white space. *)
Fixpoint has_nonspace (s : string) : bool :=
  match s with
  | EmptyString => false
  | String c s' => negb (Py.isspace c) || has_nonspace s'
  end.

(** [x] is in the list and [y] comes right after it. *)
Definition in_a_row {A} (x y : A) (l : list A) : Prop :=
  exists before after, l = before ++ x :: y :: after.

(** ** Recording how a run ended (run_batch.py, [run_prompt])

    [await Runner.run(...)] is outside the model: how it ended is an
    argument, and the store is the one the run has left behind. *)

Inductive RunOutcome : Type :=
| RunFinished (final_output : option string)
| RunRaised (message : string).

Record PromptResult : Type := mkPromptResult {
  pr_prompt : string;
  pr_success : bool;
  pr_output : option string;
  pr_error : option string;
  pr_timestamp : string
}.

Definition failure_keywords : list string :=
  ["error"; "failed"; "timeout"; "unable"; "cannot"].

(** [final_output and not any(keyword in final_output.lower() for
    keyword in [...])], as [update_request_final_result] reads the
    value: [None] is no value, and the empty string, which is what the
    expression gives for an empty output, counts as false. *)
Definition output_success (final_output : option string) : option bool :=
  match final_output with
  | None => None
  | Some output =>
      if Py.is_empty output then Some false
      else Some (negb (existsb (fun keyword => Py.contains keyword (Py.lower output))
                               failure_keywords))
  end.

(** [if context.request_id:] on an [int | None]. *)
Definition truthy_id (request_id : option Z) : option Z :=
  match request_id with
  | Some r => if r =? 0 then None else Some r
  | None => None
  end.

Definition run_prompt (clk : Clock) (prompt : string) (request_id : option Z)
    (outcome : RunOutcome) : Store Args PromptResult :=
  match outcome with
  | RunFinished final_output =>
      match truthy_id request_id with
      | Some r =>
          update_request_final_result clk r final_output (output_success final_output)
      | None => mret tt
      end;;
      mret (mkPromptResult prompt true final_output None (py_now clk))
  | RunRaised message =>
      match truthy_id request_id with
      | Some r => update_request_final_result clk r (Some message) (Some false)
      | None => mret tt
      end;;
      mret (mkPromptResult prompt false (Some "") (Some message) (py_now clk))
  end.

(** A thread whose current request id has no row. *)
Definition stale_world : World string := mkWorld (mkDB [] []) (Some 9).

(** A stand-in for SQLite's rendering of a time in the examples. *)
Definition demo_datetime_text (t : Z) : string := "t=" +:+ str_int t.

(** ** Rows and primary keys *)

Lemma find_request_set_where_same request_id
    (set : Request.t Args -> Request.t Args) rows :
  (forall r, Request.id (set r) = Request.id r) ->
  find_request request_id (set_where request_id set rows)
  = set <$> find_request request_id rows.
Proof.
  intros Hid. unfold find_request, set_where.
  induction rows as [|r rows IH]; simpl; [reflexivity|].
  destruct (Z.eqb_spec (Request.id r) request_id) as [E|E].
  - rewrite Hid, <- E, Z.eqb_refl. reflexivity.
  - apply Z.eqb_neq in E. rewrite E. exact IH.
Qed.

Lemma find_request_set_where_other request_id other
    (set : Request.t Args -> Request.t Args) rows :
  request_id <> other ->
  (forall r, Request.id (set r) = Request.id r) ->
  find_request request_id (set_where other set rows)
  = find_request request_id rows.
Proof.
  intros Hne Hid. unfold find_request, set_where.
  induction rows as [|r rows IH]; simpl; [reflexivity|].
  destruct (Z.eqb_spec (Request.id r) other) as [E|E].
  - rewrite Hid.
    destruct (Z.eqb_spec (Request.id r) request_id) as [E'|E']; [congruence|].
    exact IH.
  - destruct (Request.id r =? request_id); [reflexivity|exact IH].
Qed.

Lemma find_request_None request_id (rows : list (Request.t Args)) :
  find_request request_id rows = None ->
  Forall (fun r => Request.id r <> request_id) rows.
Proof.
  unfold find_request.
  induction rows as [|r rows IH]; simpl; intros H; [constructor|].
  destruct (Z.eqb_spec (Request.id r) request_id) as [E|E]; [discriminate|].
  constructor; auto.
Qed.

Lemma set_where_absent request_id (set : Request.t Args -> Request.t Args) rows :
  Forall (fun r => Request.id r <> request_id) rows ->
  set_where request_id set rows = rows.
Proof.
  unfold set_where. induction 1 as [|r rows Hr _ IH]; simpl; [reflexivity|].
  apply Z.eqb_neq in Hr. rewrite Hr, IH. reflexivity.
Qed.

Lemma find_request_Some request_id (rows : list (Request.t Args)) r :
  find_request request_id rows = Some r -> Request.id r = request_id.
Proof.
  unfold find_request. intros H. apply List.find_some in H.
  destruct H as [_ H]. apply Z.eqb_eq in H. exact H.
Qed.

Lemma find_request_app request_id (rows : list (Request.t Args)) r :
  find_request request_id (rows ++ [r])
  = match find_request request_id rows with
    | Some x => Some x
    | None => if Request.id r =? request_id then Some r else None
    end.
Proof.
  unfold find_request. induction rows as [|x rows IH]; simpl; [reflexivity|].
  destruct (Request.id x =? request_id); [reflexivity|exact IH].
Qed.

Lemma next_rowid_above (ids : list Z) :
  Forall (fun i => i < next_rowid ids) ids.
Proof.
  unfold next_rowid. induction ids as [|i ids IH]; simpl; constructor.
  - lia.
  - eapply Forall_impl; [exact IH|]. simpl. intros; lia.
Qed.

Lemma next_rowid_fresh (rows : list (Request.t Args)) :
  Forall (fun r => Request.id r <> next_rowid (map Request.id rows)) rows.
Proof.
  pose proof (next_rowid_above (map Request.id rows)) as H.
  rewrite Forall_fmap in H.
  eapply Forall_impl; [exact H|]. simpl. intros; lia.
Qed.

Lemma find_request_absent request_id (rows : list (Request.t Args)) :
  Forall (fun r => Request.id r <> request_id) rows ->
  find_request request_id rows = None.
Proof.
  unfold find_request. induction 1 as [|r rows Hr _ IH]; simpl; [reflexivity|].
  apply Z.eqb_neq in Hr. rewrite Hr. exact IH.
Qed.

(** ** What one call does *)

Ltac run_store :=
  unfold mbind, mret, store_bind, store_ret, raise, init_db,
    get_current_request_id, set_current_request_id, select_request,
    update_request, insert_request, insert_advice; simpl.

Lemma append_step_id clk url tool_name arguments result read (r : Request.t Args) :
  Request.id (append_step clk url tool_name arguments result read r) = Request.id r.
Proof. destruct read. reflexivity. Qed.

Lemma log_tool_call_found clk url tool_name arguments result request_id w r :
  lookup_request request_id w = Some r ->
  exists w',
    log_tool_call clk url tool_name arguments result (Some request_id) w
    = Returns tt w' /\
    lookup_request request_id w'
    = Some (append_step clk url tool_name arguments result
                        (Request.steps_json r, Request.domain r) r) /\
    (forall other, other <> request_id ->
                   lookup_request other w' = lookup_request other w) /\
    scraping_advice (db w') = scraping_advice (db w) /\
    thread_request_id w' = thread_request_id w.
Proof.
  intros Hr. unfold log_tool_call, log_tool_call_select, log_tool_call_update.
  run_store. rewrite Hr. simpl. eexists. split; [reflexivity|].
  unfold lookup_request in *. simpl. repeat split.
  - rewrite find_request_set_where_same by (intros; apply append_step_id).
    rewrite Hr. reflexivity.
  - intros other Hne.
    apply find_request_set_where_other; [exact Hne|intros; apply append_step_id].
Qed.

Lemma log_tool_call_missing clk url tool_name arguments result request_id w :
  lookup_request request_id w = None ->
  log_tool_call clk url tool_name arguments result (Some request_id) w
  = Raises (NotFound request_id) w.
Proof.
  intros Hr. unfold log_tool_call, log_tool_call_select. run_store.
  rewrite Hr. reflexivity.
Qed.

(** ** Truncation of the result text *)

Lemma slice_to_short (n : nat) (s : string) :
  (String.length s <= n)%nat -> Py.slice_to n s = s.
Proof.
  revert n. induction s as [|c s IH]; intros [|n] H; simpl in *;
    try reflexivity; try lia.
  rewrite IH by lia. reflexivity.
Qed.

Lemma slice_to_length (n : nat) (s : string) :
  String.length (Py.slice_to n s) = Nat.min n (String.length s).
Proof.
  revert n. induction s as [|c s IH]; intros [|n]; simpl; try reflexivity.
  rewrite IH. reflexivity.
Qed.

Lemma append_cons (c : ascii) (s t : string) :
  String c s +:+ t = String c (s +:+ t).
Proof. reflexivity. Qed.

Lemma slice_to_drop_chars (n : nat) (s : string) :
  Py.slice_to n s +:+ Py.drop_chars n s = s.
Proof.
  revert n. induction s as [|c s IH]; intros [|n]; try reflexivity.
  cbn [Py.slice_to Py.drop_chars]. rewrite append_cons. f_equal. apply IH.
Qed.

Lemma append_empty_r (s : string) : s +:+ "" = s.
Proof.
  induction s as [|c s IH]; [reflexivity|].
  rewrite append_cons. f_equal. exact IH.
Qed.

Lemma length_append (s t : string) :
  String.length (s +:+ t) = (String.length s + String.length t)%nat.
Proof.
  induction s as [|c s IH]; [reflexivity|].
  rewrite append_cons. cbn [String.length]. rewrite IH. reflexivity.
Qed.

Lemma summarize_cases (result : string) :
  summarize result
  = if (String.length result <=? _RESULT_SUMMARY_MAX)%nat then result
    else Py.slice_to _RESULT_SUMMARY_MAX result +:+ "...".
Proof.
  unfold summarize.
  destruct (Nat.leb_spec (String.length result) _RESULT_SUMMARY_MAX) as [H|H].
  - apply Nat.ltb_ge in H as H'. rewrite H'.
    rewrite slice_to_short by exact H. apply append_empty_r.
  - apply Nat.ltb_lt in H as H'. rewrite H'. reflexivity.
Qed.

Lemma summarize_length (result : string) :
  (String.length (summarize result) <= _RESULT_SUMMARY_MAX + String.length "...")%nat.
Proof.
  unfold summarize. rewrite length_append, slice_to_length.
  destruct (_RESULT_SUMMARY_MAX <? String.length result)%nat;
    cbn [String.length]; lia.
Qed.

(** C8: the step [log_tool_call] stores keeps [result] whole, and its
    [result_summary] is [result] itself when [result] has at most 500
    characters, and otherwise the first 500 characters of [result]
    followed by "..."; so the summary is never longer than
    500 + len("...") characters. *)
Theorem result_summary_truncated clk url tool_name arguments result request_id w r :
  lookup_request request_id w = Some r ->
  exists w' s,
    log_tool_call clk url tool_name arguments result (Some request_id) w
    = Returns tt w' /\
    Request.steps_json <$> lookup_request request_id w'
    = Some (Request.steps_json r ++ [s]) /\
    Step.result s = result /\
    Step.result_summary s
    = (if (String.length result <=? 500)%nat then result
       else Py.slice_to 500 result +:+ "...") /\
    Py.slice_to 500 result +:+ Py.drop_chars 500 result = result /\
    String.length (Py.slice_to 500 result) = Nat.min 500 (String.length result) /\
    (String.length (Step.result_summary s) <= 500 + String.length "...")%nat.
Proof.
  intros Hr.
  destruct (log_tool_call_found clk url tool_name arguments result _ _ Hr)
    as (w' & Hrun & Hrow & _).
  eexists w', _. split; [exact Hrun|]. rewrite Hrow.
  split; [reflexivity|]. cbn [Step.result Step.result_summary new_step].
  split; [reflexivity|].
  split; [apply summarize_cases|].
  split; [apply slice_to_drop_chars|].
  split; [apply slice_to_length|].
  apply summarize_length.
Qed.

(** ** Which request a step goes to *)

Lemma set_where_app request_id (set : Request.t Args -> Request.t Args) rows rows' :
  set_where request_id set (rows ++ rows')
  = set_where request_id set rows ++ set_where request_id set rows'.
Proof. unfold set_where. apply map_app. Qed.

Lemma log_tool_call_auto_create clk url tool_name arguments result w :
  thread_request_id w = None ->
  let request_id := next_rowid (map Request.id (scrape_requests (db w))) in
  log_tool_call clk url tool_name arguments result None w
  = Returns tt
      (mkWorld
         (mkDB (scrape_requests (db w) ++
                [Request.mk request_id "(auto-created from tool call)"
                   (Some (_domain_from_url url))
                   [new_step clk url tool_name arguments result 0]
                   None None (sql_now clk) (sql_now clk)])
               (scraping_advice (db w)))
         (Some request_id)).
Proof.
  intros Hcur request_id.
  pose proof (next_rowid_fresh (scrape_requests (db w))) as Hfresh.
  fold request_id in Hfresh.
  unfold log_tool_call, start_scrape_request, log_tool_call_select,
    log_tool_call_update.
  run_store. rewrite Hcur. simpl. fold request_id.
  unfold lookup_request. simpl.
  rewrite find_request_app, (find_request_absent Hfresh). simpl.
  rewrite Z.eqb_refl. simpl.
  rewrite set_where_app, (set_where_absent _ Hfresh).
  unfold set_where. simpl. rewrite Z.eqb_refl.
  unfold append_step, Py.or_else. simpl.
  replace (Py.truthy None) with (@None string) by reflexivity.
  reflexivity.
Qed.

(** C7: with [request_id] omitted and no current request in the
    thread-local, [log_tool_call] returns normally: it inserts a new
    request under a key no row had, with the placeholder prompt
    "(auto-created from tool call)", whose only step is the step being
    logged, and leaves every other request as it was.  With an explicit
    [request_id] that no row has, it raises the not-found error and the
    store is unchanged. *)
Theorem log_tool_call_request_resolution clk url tool_name arguments result w :
  (thread_request_id w = None ->
   exists w' request_id r,
     log_tool_call clk url tool_name arguments result None w = Returns tt w' /\
     lookup_request request_id w = None /\
     lookup_request request_id w' = Some r /\
     Request.prompt r = "(auto-created from tool call)" /\
     Request.steps_json r = [new_step clk url tool_name arguments result 0] /\
     (forall other, other <> request_id ->
                    lookup_request other w' = lookup_request other w)) /\
  (forall request_id,
     lookup_request request_id w = None ->
     log_tool_call clk url tool_name arguments result (Some request_id) w
     = Raises (NotFound request_id) w).
Proof.
  split.
  - intros Hcur.
    pose proof (next_rowid_fresh (scrape_requests (db w))) as Hfresh.
    eexists _, (next_rowid (map Request.id (scrape_requests (db w)))), _.
    split; [apply log_tool_call_auto_create; exact Hcur|].
    unfold lookup_request. simpl.
    split; [apply find_request_absent; exact Hfresh|].
    rewrite find_request_app, (find_request_absent Hfresh). simpl.
    rewrite Z.eqb_refl.
    split; [reflexivity|]. split; [reflexivity|]. split; [reflexivity|].
    intros other Hne. rewrite find_request_app. simpl.
    destruct (find_request other (scrape_requests (db w))); [reflexivity|].
    destruct (Z.eqb_spec (next_rowid (map Request.id (scrape_requests (db w)))) other);
      [congruence|reflexivity].
  - intros request_id Hr. apply log_tool_call_missing. exact Hr.
Qed.

(** ** Outcome marking and the final result *)

Lemma world_eta (w : World Args) :
  mkWorld (mkDB (scrape_requests (db w)) (scraping_advice (db w)))
          (thread_request_id w) = w.
Proof. destruct w as [[] ?]. reflexivity. Qed.

Lemma update_request_absent request_id (set : Request.t Args -> Request.t Args) w :
  lookup_request request_id w = None ->
  update_request request_id set w = Returns tt w.
Proof.
  intros Hr. unfold update_request.
  rewrite (set_where_absent set (find_request_None _ _ Hr)), world_eta.
  reflexivity.
Qed.

Lemma set_steps_id clk steps (r : Request.t Args) :
  Request.id (set_steps clk steps r) = Request.id r.
Proof. reflexivity. Qed.

Lemma lookup_update_request_same request_id
    (set : Request.t Args -> Request.t Args) w :
  (forall r, Request.id (set r) = Request.id r) ->
  lookup_request request_id (world_of (update_request request_id set w))
  = set <$> lookup_request request_id w.
Proof. intros H. apply find_request_set_where_same. exact H. Qed.

Lemma lookup_update_request_other request_id other
    (set : Request.t Args -> Request.t Args) w :
  request_id <> other ->
  (forall r, Request.id (set r) = Request.id r) ->
  lookup_request request_id (world_of (update_request other set w))
  = lookup_request request_id w.
Proof. intros Hne H. apply find_request_set_where_other; assumption. Qed.

Lemma update_step_outcome_given clk request_id step_id led_to_data evaluator_notes w :
  led_to_data <> None \/ evaluator_notes <> None ->
  update_step_outcome clk request_id step_id led_to_data evaluator_notes w
  = match lookup_request request_id w with
    | None => Raises (NotFound request_id) w
    | Some r =>
        if (step_id <? 0) || (Z.of_nat (length (Request.steps_json r)) <=? step_id)
        then Raises (OutOfRange step_id request_id) w
        else update_request request_id
               (set_steps clk (alter (set_outcome led_to_data evaluator_notes)
                                     (Z.to_nat step_id) (Request.steps_json r))) w
    end.
Proof.
  intros Hgiven. unfold update_step_outcome.
  destruct led_to_data, evaluator_notes;
    try (destruct Hgiven; congruence);
    unfold init_db, select_request, raise, mbind, mret, store_bind, store_ret;
    destruct (lookup_request request_id w); try reflexivity;
    match goal with |- context [if ?c then _ else _] => destruct c end;
    reflexivity.
Qed.

(** C9: with [led_to_data] and [evaluator_notes] both [None],
    [update_step_outcome] returns at once, before any SELECT: the store
    is left as it was and no error is raised, also when no request has
    the given [request_id]. *)
Theorem update_step_outcome_nothing_to_do clk request_id step_id w :
  lookup_request request_id w = None ->
  update_step_outcome clk request_id step_id None None w = Returns tt w /\
  update_step_outcome clk request_id step_id None None w
  <> Raises (NotFound request_id) w.
Proof.
  intros _. split; [reflexivity|]. unfold update_step_outcome. discriminate.
Qed.

(** C10: [update_request_final_result] on a [request_id] no row has
    returns normally whatever [final_result] and [success] are, and the
    whole store is as before: the UPDATE matches no row. *)
Theorem update_request_final_result_missing clk request_id final_result success w :
  lookup_request request_id w = None ->
  update_request_final_result clk request_id final_result success w = Returns tt w.
Proof.
  intros Hr. unfold update_request_final_result.
  destruct final_result, success;
    unfold init_db, mbind, mret, store_bind, store_ret;
    try reflexivity; apply update_request_absent; exact Hr.
Qed.

(** C5 (amended): when at least one of [led_to_data] and
    [evaluator_notes] is given, [update_step_outcome] raises the
    not-found error if no request has [request_id], raises the
    out-of-range error if [step_id] is negative or not below the number
    of steps of that request, and otherwise rewrites that one step in
    place; in both failures the store is unchanged.  When both are
    omitted it returns without any change, whatever [request_id] and
    [step_id] are. *)
Theorem update_step_outcome_failures clk request_id step_id led_to_data
    evaluator_notes w :
  (led_to_data = None /\ evaluator_notes = None ->
   update_step_outcome clk request_id step_id led_to_data evaluator_notes w
   = Returns tt w) /\
  (led_to_data <> None \/ evaluator_notes <> None ->
   (lookup_request request_id w = None ->
    update_step_outcome clk request_id step_id led_to_data evaluator_notes w
    = Raises (NotFound request_id) w) /\
   (forall r,
      lookup_request request_id w = Some r ->
      ~ (0 <= step_id < Z.of_nat (length (Request.steps_json r))) ->
      update_step_outcome clk request_id step_id led_to_data evaluator_notes w
      = Raises (OutOfRange step_id request_id) w) /\
   (forall r,
      lookup_request request_id w = Some r ->
      0 <= step_id < Z.of_nat (length (Request.steps_json r)) ->
      exists w',
        update_step_outcome clk request_id step_id led_to_data evaluator_notes w
        = Returns tt w' /\
        lookup_request request_id w'
        = Some (set_steps clk
                  (alter (set_outcome led_to_data evaluator_notes)
                         (Z.to_nat step_id) (Request.steps_json r)) r))).
Proof.
  split.
  - intros [-> ->]. reflexivity.
  - intros Hgiven. rewrite (update_step_outcome_given _ _ _ _ Hgiven).
    split; [|split].
    + intros ->. reflexivity.
    + intros r -> Hout.
      destruct (Z.ltb_spec step_id 0); [reflexivity|].
      destruct (Z.leb_spec (Z.of_nat (length (Request.steps_json r))) step_id);
        [reflexivity|lia].
    + intros r Hr Hin. rewrite Hr.
      destruct (Z.ltb_spec step_id 0); [lia|].
      destruct (Z.leb_spec (Z.of_nat (length (Request.steps_json r))) step_id);
        [lia|]. simpl.
      eexists. split; [reflexivity|].
      pose proof (lookup_update_request_same request_id
                    (set_steps clk (alter (set_outcome led_to_data evaluator_notes)
                                          (Z.to_nat step_id) (Request.steps_json r))) w
                    (fun r => eq_refl)) as H1.
      simpl in H1. rewrite H1, Hr. reflexivity.
Qed.

(** ** The steps sequence only grows *)

Lemma same_log_entry_refl (s : Step.t Args) : Step.same_log_entry s s.
Proof. unfold Step.same_log_entry. repeat split. Qed.

Lemma same_log_entry_set_outcome led_to_data evaluator_notes (s : Step.t Args) :
  Step.same_log_entry s (set_outcome led_to_data evaluator_notes s).
Proof.
  destruct led_to_data, evaluator_notes; unfold Step.same_log_entry;
    repeat split.
Qed.

Lemma Forall2_same_log_entry_refl (l : list (Step.t Args)) :
  Forall2 Step.same_log_entry l l.
Proof. induction l; constructor; auto using same_log_entry_refl. Qed.

Lemma Forall2_same_log_entry_alter led_to_data evaluator_notes i
    (l : list (Step.t Args)) :
  Forall2 Step.same_log_entry l (alter (set_outcome led_to_data evaluator_notes) i l).
Proof.
  revert i. induction l as [|s l IH]; intros [|i]; simpl; constructor;
    auto using same_log_entry_refl, same_log_entry_set_outcome,
      Forall2_same_log_entry_refl.
  apply IH.
Qed.

Lemma grows_in_place_refl (l : list (Step.t Args)) : grows_in_place l l.
Proof.
  exists l, []. split; [symmetry; apply app_nil_r|].
  apply Forall2_same_log_entry_refl.
Qed.

Lemma grows_in_place_app (l added : list (Step.t Args)) :
  grows_in_place l (l ++ added).
Proof.
  exists l, added. split; [reflexivity|]. apply Forall2_same_log_entry_refl.
Qed.

Lemma grows_in_place_alter led_to_data evaluator_notes i (l : list (Step.t Args)) :
  grows_in_place l (alter (set_outcome led_to_data evaluator_notes) i l).
Proof.
  eexists _, []. split; [symmetry; apply app_nil_r|].
  apply Forall2_same_log_entry_alter.
Qed.

Lemma domain_from_url_not_empty (url : string) :
  Py.is_empty (_domain_from_url url) = false.
Proof.
  unfold _domain_from_url. destruct (urlparse_netloc url) as [netloc|];
    [|reflexivity].
  simpl. destruct (Py.is_empty (Py.lstrip "www." (Py.lower netloc))) eqn:E;
    [reflexivity|exact E].
Qed.

Lemma or_else_not_empty (a : option string) (b : string) :
  Py.is_empty b = false -> Py.is_empty (Py.or_else a b) = false.
Proof.
  intros Hb. unfold Py.or_else, Py.truthy.
  destruct a as [s|]; [|exact Hb].
  destruct (Py.is_empty s) eqn:E; [exact Hb|exact E].
Qed.

Lemma or_else_keeps (d b : string) :
  Py.is_empty d = false -> Py.or_else (Some d) b = d.
Proof. intros Hd. unfold Py.or_else, Py.truthy. rewrite Hd. reflexivity. Qed.

Lemma log_all_found request_id calls : forall w r,
  lookup_request request_id w = Some r ->
  exists w' r',
    log_all request_id calls w = Returns tt w' /\
    lookup_request request_id w' = Some r' /\
    Request.steps_json r'
    = Request.steps_json r ++ logged_steps (length (Request.steps_json r)) calls /\
    Request.domain r' = logged_domain (Request.domain r) calls /\
    (forall other, other <> request_id ->
                   lookup_request other w' = lookup_request other w).
Proof.
  induction calls as [|c calls IH]; intros w r Hr.
  - exists w, r. simpl. rewrite app_nil_r. auto.
  - destruct (log_tool_call_found (tc_clock c) (tc_url c) (tc_tool_name c)
                (tc_arguments c) (tc_result c) _ _ Hr)
      as (w1 & Hrun & Hrow & Hother & _).
    destruct (IH _ _ Hrow) as (w' & r' & Hrun' & Hrow' & Hsteps & Hdom & Hother').
    exists w', r'. split; [|split; [exact Hrow'|split; [|split]]].
    + cbn [log_all]. unfold mbind, store_bind, log_call. rewrite Hrun. exact Hrun'.
    + rewrite Hsteps. cbn [append_step Request.steps_json].
      rewrite <- app_assoc. f_equal.
      unfold logged_steps. cbn [imap app]. rewrite Nat.add_0_r. f_equal.
      apply imap_ext. intros i x _. simpl. rewrite length_app. simpl.
      do 2 f_equal. lia.
    + rewrite Hdom. cbn [append_step Request.domain new_step Step.domain].
      destruct calls as [|c' calls']; simpl; [reflexivity|].
      rewrite or_else_keeps; [reflexivity|].
      apply or_else_not_empty, domain_from_url_not_empty.
    + intros other Hne. rewrite Hother', Hother by exact Hne. reflexivity.
Qed.

Lemma log_tool_call_current clk url tool_name arguments result request_id w :
  thread_request_id w = Some request_id ->
  log_tool_call clk url tool_name arguments result None w
  = log_tool_call clk url tool_name arguments result (Some request_id) w.
Proof.
  intros Hcur. unfold log_tool_call. run_store. rewrite Hcur. reflexivity.
Qed.

Lemma search_history_world domain url_contains limit w :
  world_of (search_history domain url_contains limit w) = w.
Proof. reflexivity. Qed.

Lemma get_advice_world domain limit w : world_of (get_advice domain limit w) = w.
Proof. reflexivity. Qed.

Lemma get_advice_for_domain_world domain w :
  world_of (get_advice_for_domain domain w) = w.
Proof.
  unfold get_advice_for_domain, mbind, store_bind.
  destruct (get_advice _ 10 w) as [l w'|e w'] eqn:E.
  - assert (w' = w) as -> by (pose proof (get_advice_world (Some (Py.lstrip "www." (Py.lower (Py.strip domain)))) 10 w) as H; rewrite E in H; exact H).
    destruct l; reflexivity.
  - discriminate E.
Qed.

Lemma well_indexed_snoc (l : list (Step.t Args)) (s : Step.t Args) :
  well_indexed l -> Step.step_id s = Z.of_nat (length l) -> well_indexed (l ++ [s]).
Proof.
  intros Hl Hs i x Hx. apply lookup_app_Some in Hx as [Hx|[Hle Hx]].
  - apply Hl. exact Hx.
  - destruct (i - length l)%nat as [|k] eqn:E; [|discriminate Hx].
    simpl in Hx. injection Hx as <-. rewrite Hs. f_equal. lia.
Qed.

Lemma well_indexed_same_log_entry (l k : list (Step.t Args)) :
  Forall2 Step.same_log_entry l k -> well_indexed l -> well_indexed k.
Proof.
  intros HF Hl i y Hy.
  destruct (Forall2_lookup_r _ _ _ _ _ HF Hy) as (x & Hx & Hxy).
  destruct Hxy as [Hid _]. rewrite <- Hid. apply Hl. exact Hx.
Qed.

Lemma well_indexed_logged (l : list (Step.t Args)) calls :
  well_indexed l -> well_indexed (l ++ logged_steps (length l) calls).
Proof.
  intros Hl i x Hx. apply lookup_app_Some in Hx as [Hx|[Hle Hx]].
  - apply Hl. exact Hx.
  - unfold logged_steps in Hx. rewrite list_lookup_imap in Hx.
    destruct (calls !! (i - length l)%nat) as [c|]; [|discriminate Hx].
    simpl in Hx. injection Hx as <-. simpl. f_equal. lia.
Qed.

Lemma request_kept_refl (r : Request.t Args) : request_kept r r.
Proof. split; [apply grows_in_place_refl|]. repeat split; auto. Qed.

Lemma request_kept_append clk url tool_name arguments result (r : Request.t Args) :
  request_kept r (append_step clk url tool_name arguments result
                              (Request.steps_json r, Request.domain r) r).
Proof.
  split; [apply grows_in_place_app|].
  split; [intros H; apply well_indexed_snoc; [exact H|reflexivity]|].
  split; [reflexivity|].
  intros d Hd Hne. cbn [append_step Request.domain]. rewrite Hd.
  rewrite or_else_keeps by exact Hne. reflexivity.
Qed.

Lemma request_kept_set_final_result clk final_result success (r : Request.t Args) :
  request_kept r (set_final_result clk final_result success r).
Proof. split; [apply grows_in_place_refl|]. repeat split; auto. Qed.

Lemma request_kept_set_outcome clk led_to_data evaluator_notes i (r : Request.t Args) :
  request_kept r
    (set_steps clk (alter (set_outcome led_to_data evaluator_notes) i
                          (Request.steps_json r)) r).
Proof.
  split; [apply grows_in_place_alter|].
  split; [apply well_indexed_same_log_entry, Forall2_same_log_entry_alter|].
  split; auto.
Qed.

(** [update_step_outcome] never changes how many steps a request has. *)
Lemma update_step_outcome_in_place clk target step_id led_to_data evaluator_notes
    w request_id r :
  lookup_request request_id w = Some r ->
  exists r',
    lookup_request request_id
      (world_of (update_step_outcome clk target step_id led_to_data
                                     evaluator_notes w)) = Some r' /\
    Forall2 Step.same_log_entry (Request.steps_json r) (Request.steps_json r') /\
    request_kept r r'.
Proof.
  intros Hr.
  assert (Hsame : exists r',
             lookup_request request_id w = Some r' /\
             Forall2 Step.same_log_entry (Request.steps_json r) (Request.steps_json r') /\
             request_kept r r')
    by (exists r; split; [exact Hr|];
        split; [apply Forall2_same_log_entry_refl|apply request_kept_refl]).
  destruct led_to_data as [b|] eqn:El, evaluator_notes as [t|] eqn:En;
    try exact Hsame;
    first [rewrite update_step_outcome_given by (left; discriminate)
          |rewrite update_step_outcome_given by (right; discriminate)];
    (destruct (lookup_request target w) as [r0|] eqn:Ht; [|exact Hsame]);
    (match goal with |- context [if ?c then _ else _] => destruct c end;
     [exact Hsame|]);
    (destruct (Z.eq_dec request_id target) as [->|Hne];
     [rewrite lookup_update_request_same, Hr by reflexivity;
      assert (r0 = r) as -> by congruence;
      eexists; split; [reflexivity|];
      split; [apply Forall2_same_log_entry_alter|apply request_kept_set_outcome]
     |rewrite lookup_update_request_other by (auto || reflexivity);
      exact Hsame]).
Qed.

Lemma log_tool_call_keeps clk url tool_name arguments result target w request_id r :
  lookup_request request_id w = Some r ->
  exists r',
    lookup_request request_id
      (world_of (log_tool_call clk url tool_name arguments result (Some target) w))
    = Some r' /\ request_kept r r'.
Proof.
  intros Hr. destruct (lookup_request target w) as [r0|] eqn:Ht.
  - destruct (log_tool_call_found clk url tool_name arguments result _ _ Ht)
      as (w' & Hrun & Hrow & Hother & _).
    rewrite Hrun. cbn [world_of].
    destruct (Z.eq_dec request_id target) as [->|Hne].
    + rewrite Hrow. eexists. split; [reflexivity|].
      assert (r0 = r) as -> by congruence. apply request_kept_append.
    + rewrite (Hother _ Hne), Hr. eexists. split; [reflexivity|].
      apply request_kept_refl.
  - rewrite (log_tool_call_missing clk url tool_name arguments result _ _ Ht).
    cbn [world_of]. rewrite Hr. eexists. split; [reflexivity|].
    apply request_kept_refl.
Qed.

Lemma exec_keeps_request op w request_id r :
  lookup_request request_id w = Some r ->
  exists r', lookup_request request_id (exec op w) = Some r' /\ request_kept r r'.
Proof.
  intros Hr.
  assert (Hsame : exists r', lookup_request request_id w = Some r' /\ request_kept r r')
    by (exists r; split; [exact Hr|apply request_kept_refl]).
  destruct op as [cur|clk p|c target|clk target f sc|clk target i l n|d u l|clk d a|d l|d];
    cbn [exec].
  - exact Hsame.
  - unfold start_scrape_request. run_store. unfold lookup_request in *. simpl.
    rewrite find_request_app, Hr. rewrite Hr in Hsame. exact Hsame.
  - unfold log_call. destruct target as [target|].
    + apply log_tool_call_keeps. exact Hr.
    + destruct (thread_request_id w) as [target|] eqn:Hcur.
      * rewrite (log_tool_call_current _ _ _ _ _ _ Hcur).
        apply log_tool_call_keeps. exact Hr.
      * rewrite (log_tool_call_auto_create _ _ _ _ _ _ Hcur). cbn [world_of].
        unfold lookup_request in *. simpl. rewrite find_request_app, Hr.
        rewrite Hr in Hsame. exact Hsame.
  - unfold update_request_final_result.
    destruct f, sc; unfold init_db, mbind, mret, store_bind, store_ret;
      try exact Hsame;
      (destruct (Z.eq_dec request_id target) as [->|Hne];
       [rewrite lookup_update_request_same, Hr by reflexivity;
        eexists; split; [reflexivity|apply request_kept_set_final_result]
       |rewrite lookup_update_request_other by (auto || reflexivity);
        exact Hsame]).
  - destruct (update_step_outcome_in_place clk target i l n _ _ Hr)
      as (r' & Hrow & _ & Hkept).
    exists r'. split; assumption.
  - rewrite search_history_world. exact Hsame.
  - exact Hsame.
  - rewrite get_advice_world. exact Hsame.
  - rewrite get_advice_for_domain_world. exact Hsame.
Qed.

Lemma same_log_entry_trans (a b c : Step.t Args) :
  Step.same_log_entry a b -> Step.same_log_entry b c -> Step.same_log_entry a c.
Proof.
  unfold Step.same_log_entry.
  intros (?&?&?&?&?&?&?&?&?) (?&?&?&?&?&?&?&?&?).
  repeat split; congruence.
Qed.

Lemma Forall2_same_log_entry_trans (l k m : list (Step.t Args)) :
  Forall2 Step.same_log_entry l k -> Forall2 Step.same_log_entry k m ->
  Forall2 Step.same_log_entry l m.
Proof.
  intros H. revert m. induction H as [|a b l k Hab _ IH]; intros m Hm.
  - inversion Hm. constructor.
  - inversion Hm as [|b' c k' m' Hbc Hkm]; subst.
    constructor; [eapply same_log_entry_trans; eassumption|apply IH; exact Hkm].
Qed.

Lemma grows_in_place_trans (l k m : list (Step.t Args)) :
  grows_in_place l k -> grows_in_place k m -> grows_in_place l m.
Proof.
  intros (kept1 & added1 & -> & H1) (kept2 & added2 & -> & H2).
  apply Forall2_app_inv_l in H2 as (k2a & k2b & Ha & Hb & ->).
  exists k2a, (k2b ++ added2). split; [symmetry; apply app_assoc|].
  eapply Forall2_same_log_entry_trans; eassumption.
Qed.

Lemma request_kept_trans (a b c : Request.t Args) :
  request_kept a b -> request_kept b c -> request_kept a c.
Proof.
  intros (Hg1 & Hw1 & Hp1 & Hd1) (Hg2 & Hw2 & Hp2 & Hd2).
  split; [eapply grows_in_place_trans; eassumption|].
  split; [auto|]. split; [congruence|].
  intros d Hd Hne. apply Hd2; [apply Hd1; assumption|exact Hne].
Qed.

Lemma exec_all_keeps_request ops : forall w request_id r,
  lookup_request request_id w = Some r ->
  exists r', lookup_request request_id (exec_all ops w) = Some r' /\ request_kept r r'.
Proof.
  induction ops as [|op ops IH]; intros w request_id r Hr.
  - exists r. split; [exact Hr|apply request_kept_refl].
  - destruct (@exec_keeps_request op w request_id r Hr) as (r1 & Hr1 & Hk1).
    destruct (IH _ _ _ Hr1) as (r' & Hr' & Hk').
    exists r'. split; [exact Hr'|]. eapply request_kept_trans; eassumption.
Qed.

(** C1: from any store in which the request exists, any list of N
    [log_tool_call]s against it returns normally and leaves the request
    with N more steps after the ones it had, those unchanged; if every
    step carried its position before, every step does after, so a
    request that started empty has exactly N steps with [step_id]
    0, 1, ..., N-1.  No sequence of calls of the public functions of
    the store, returning or raising, removes or moves a step of an
    existing request: the old steps are still at their positions, equal
    up to [led_to_data] and [evaluator_notes], and still carry their
    positions; and [update_step_outcome] leaves the number of steps as
    it is. *)
Theorem steps_append_only request_id w r :
  lookup_request request_id w = Some r ->
  (forall calls, exists w' r',
     log_all request_id calls w = Returns tt w' /\
     lookup_request request_id w' = Some r' /\
     length (Request.steps_json r')
     = (length (Request.steps_json r) + length calls)%nat /\
     take (length (Request.steps_json r)) (Request.steps_json r')
     = Request.steps_json r /\
     (well_indexed (Request.steps_json r) -> well_indexed (Request.steps_json r')) /\
     (Request.steps_json r = [] ->
      length (Request.steps_json r') = length calls /\
      well_indexed (Request.steps_json r'))) /\
  (forall ops, exists r',
     lookup_request request_id (exec_all ops w) = Some r' /\
     grows_in_place (Request.steps_json r) (Request.steps_json r') /\
     (well_indexed (Request.steps_json r) -> well_indexed (Request.steps_json r'))) /\
  (forall clk target step_id led_to_data evaluator_notes, exists r',
     lookup_request request_id
       (world_of (update_step_outcome clk target step_id led_to_data
                                      evaluator_notes w)) = Some r' /\
     Forall2 Step.same_log_entry (Request.steps_json r) (Request.steps_json r')).
Proof.
  intros Hr. split; [|split].
  - intros calls.
    destruct (@log_all_found request_id calls w r Hr)
      as (w' & r' & Hrun & Hrow & Hsteps & _).
    exists w', r'. split; [exact Hrun|]. split; [exact Hrow|].
    rewrite Hsteps. unfold logged_steps.
    split; [rewrite length_app, length_imap; reflexivity|].
    split; [apply take_app_length|].
    split; [apply well_indexed_logged|].
    intros Hnil. rewrite Hnil. simpl. split; [apply length_imap|].
    apply (well_indexed_logged (l:=[]) calls). intros i s Hs. discriminate Hs.
  - intros ops.
    destruct (@exec_all_keeps_request ops w request_id r Hr)
      as (r' & Hrow & Hg & Hw & _).
    exists r'. auto.
  - intros clk target step_id led_to_data evaluator_notes.
    destruct (@update_step_outcome_in_place clk target step_id led_to_data
                evaluator_notes w request_id r Hr) as (r' & Hrow & HF & _).
    exists r'. auto.
Qed.

(** C4: on a request that has no step and no domain yet, after a first
    logged call and any further calls, whatever their URLs, the domain
    of the request is the domain of its step 0, which is the one
    [_domain_from_url] gives for the first URL; and no sequence of
    calls of the public functions of the store changes it afterwards. *)
Theorem first_domain_wins request_id w r c calls :
  lookup_request request_id w = Some r ->
  Request.steps_json r = [] ->
  Request.domain r = None ->
  exists w' r' first,
    log_all request_id (c :: calls) w = Returns tt w' /\
    lookup_request request_id w' = Some r' /\
    Request.steps_json r' !! 0%nat = Some first /\
    Step.url first = tc_url c /\
    Step.domain first = _domain_from_url (tc_url c) /\
    Request.domain r' = Some (Step.domain first) /\
    (forall ops, exists r'',
       lookup_request request_id (exec_all ops w') = Some r'' /\
       Request.domain r'' = Request.domain r').
Proof.
  intros Hr Hnil Hdom.
  destruct (@log_all_found request_id (c :: calls) w r Hr)
    as (w' & r' & Hrun & Hrow & Hsteps & Hdom' & _).
  rewrite Hnil in Hsteps. rewrite Hdom in Hdom'. simpl in Hsteps, Hdom'.
  eexists w', r', _. split; [exact Hrun|]. split; [exact Hrow|].
  rewrite Hsteps. unfold logged_steps. cbn [imap lookup list_lookup].
  split; [reflexivity|]. split; [reflexivity|]. split; [reflexivity|].
  split; [exact Hdom'|].
  intros ops.
  destruct (@exec_all_keeps_request ops w' request_id r' Hrow)
    as (r'' & Hrow' & _ & _ & _ & Hd).
  exists r''. split; [exact Hrow'|]. rewrite Hdom'. apply Hd; [exact Hdom'|].
  apply domain_from_url_not_empty.
Qed.

(** ** Calls that do not overlap *)

Lemma log_tool_call_two_statements clk url tool_name arguments result request_id w :
  log_tool_call clk url tool_name arguments result (Some request_id) w
  = match log_tool_call_select request_id w with
    | Returns read w' =>
        log_tool_call_update clk url tool_name arguments result request_id read w'
    | Raises e w' => Raises e w'
    end.
Proof. reflexivity. Qed.

Lemma log_tool_call_select_found request_id w r :
  lookup_request request_id w = Some r ->
  log_tool_call_select request_id w
  = Returns (Request.steps_json r, Request.domain r) w.
Proof.
  intros Hr. unfold log_tool_call_select. run_store. rewrite Hr. reflexivity.
Qed.

Lemma run_serial_from request_id calls : forall done phases_done w r,
  lookup_request request_id w = Some r ->
  length phases_done = length done ->
  exists w',
    log_all request_id calls w = Returns tt w' /\
    snd (run_schedule request_id (done ++ calls)
           (serial_from (length done) (length calls))
           (phases_done ++ replicate (length calls) NotStarted) w) = w'.
Proof.
  induction calls as [|c calls IH]; intros done phases_done w r Hr Hlen.
  - exists w. split; reflexivity.
  - destruct (@log_tool_call_found (tc_clock c) (tc_url c) (tc_tool_name c)
                (tc_arguments c) (tc_result c) request_id w r Hr)
      as (w1 & Hrun & Hrow & _).
    destruct (IH (done ++ [c]) (phases_done ++ [Finished]) w1 _ Hrow)
      as (w' & Hrun' & Hsched).
    { rewrite !length_app, Hlen. reflexivity. }
    exists w'. split.
    + cbn [log_all]. unfold mbind, store_bind, log_call. rewrite Hrun. exact Hrun'.
    + rewrite <- Hsched. rewrite length_app, Nat.add_1_r, <- !app_assoc.
      cbn [length replicate serial_from run_schedule app].
      rewrite (list_lookup_middle done calls c (length done) eq_refl).
      rewrite (list_lookup_middle phases_done _ NotStarted (length done))
        by (symmetry; exact Hlen).
      cbn [advance]. rewrite (log_tool_call_select_found _ _ Hr).
      replace (<[length done:=HasRead (Request.steps_json r, Request.domain r)]>
                 (phases_done ++ NotStarted :: replicate (length calls) NotStarted))
        with (phases_done ++ HasRead (Request.steps_json r, Request.domain r)
                :: replicate (length calls) NotStarted).
      2:{ rewrite <- Hlen. rewrite <- (Nat.add_0_r (length phases_done)).
          rewrite insert_app_r. reflexivity. }
      rewrite (list_lookup_middle phases_done _ (HasRead _) (length done))
        by (symmetry; exact Hlen).
      cbn [advance].
      rewrite log_tool_call_two_statements,
        (log_tool_call_select_found _ _ Hr) in Hrun.
      rewrite Hrun. lazy beta iota zeta.
      replace (<[length done:=Finished]>
                 (phases_done ++ HasRead (Request.steps_json r, Request.domain r)
                    :: replicate (length calls) NotStarted))
        with (phases_done ++ Finished :: replicate (length calls) NotStarted).
      2:{ rewrite <- Hlen. rewrite <- (Nat.add_0_r (length phases_done)).
          rewrite insert_app_r. reflexivity. }
      reflexivity.
Qed.

(** C2 (amended): when the N calls run one after the other, each doing
    its SELECT and its UPDATE before the next call starts, the store
    ends as after the N calls in sequence, and the request has N more
    steps than before, none lost. *)
Theorem serial_calls_lose_nothing request_id calls w r :
  lookup_request request_id w = Some r ->
  exists w' r',
    is_interleaving (length calls) (serial (length calls)) /\
    log_all request_id calls w = Returns tt w' /\
    snd (run_schedule request_id calls (serial (length calls))
           (replicate (length calls) NotStarted) w) = w' /\
    lookup_request request_id w' = Some r' /\
    steps_after request_id calls (serial (length calls)) w
    = Some (Request.steps_json r') /\
    length (Request.steps_json r')
    = (length (Request.steps_json r) + length calls)%nat.
Proof.
  intros Hr.
  destruct (@run_serial_from request_id calls [] [] w r Hr eq_refl)
    as (w' & Hrun & Hsched).
  destruct (@log_all_found request_id calls w r Hr)
    as (w'' & r' & Hrun' & Hrow & Hsteps & _).
  assert (w'' = w') as -> by congruence.
  exists w', r'. simpl in Hsched.
  split; [unfold is_interleaving; reflexivity|].
  split; [exact Hrun|]. split; [exact Hsched|].
  split; [exact Hrow|].
  split.
  - unfold steps_after, serial. rewrite Hsched, Hrow. reflexivity.
  - rewrite Hsteps, length_app. unfold logged_steps. rewrite length_imap.
    reflexivity.
Qed.

(** ** LIKE without wildcards is substring search *)

Lemma like_percent (q s : string) :
  Sql.like (String "%" q) s
  = Sql.like q s ||
    match s with
    | EmptyString => false
    | String _ s' => Sql.like (String "%" q) s'
    end.
Proof. destruct s; reflexivity. Qed.

Lemma like_literal (c : ascii) (q s : string) :
  Ascii.eqb c "%" = false -> Ascii.eqb c "_" = false ->
  Sql.like (String c q) s
  = match s with
    | EmptyString => false
    | String d s' => Ascii.eqb (Py.lower_char c) (Py.lower_char d) && Sql.like q s'
    end.
Proof. intros H1 H2. cbn [Sql.like]. rewrite H1, H2. reflexivity. Qed.

Lemma like_only_percent (s : string) : Sql.like "%" s = true.
Proof.
  induction s as [|c s IH]; [reflexivity|].
  rewrite like_percent, IH. apply orb_true_r.
Qed.

Lemma has_wildcard_cons (c : ascii) (p : string) :
  Sql.has_wildcard (String c p) = false ->
  Ascii.eqb c "%" = false /\ Ascii.eqb c "_" = false /\ Sql.has_wildcard p = false.
Proof.
  unfold Sql.has_wildcard. cbn [Py.mem_char].
  rewrite (Ascii.eqb_sym c "%"), (Ascii.eqb_sym c "_").
  destruct (Ascii.eqb "%" c), (Ascii.eqb "_" c), (Py.mem_char "%" p),
    (Py.mem_char "_" p); simpl; intros H; try discriminate H; auto.
Qed.

Lemma like_prefix (p : string) : forall s,
  Sql.has_wildcard p = false ->
  Sql.like (p +:+ "%") s = Py.startswith (Py.lower p) (Py.lower s).
Proof.
  induction p as [|c p IH]; intros s Hp.
  - change ("" +:+ "%") with "%". rewrite like_only_percent. reflexivity.
  - apply has_wildcard_cons in Hp as (H1 & H2 & Hp).
    rewrite append_cons, (@like_literal c _ _ H1 H2).
    destruct s as [|d s]; [reflexivity|].
    cbn [Py.lower Py.startswith]. rewrite IH by exact Hp. reflexivity.
Qed.

Lemma like_contains (p s : string) :
  Sql.has_wildcard p = false ->
  Sql.like ("%" +:+ p +:+ "%") s = Py.contains (Py.lower p) (Py.lower s).
Proof.
  intros Hp. change ("%" +:+ p +:+ "%") with (String "%" (p +:+ "%")).
  induction s as [|d s IH].
  - rewrite like_percent, like_prefix by exact Hp. reflexivity.
  - rewrite like_percent, like_prefix by exact Hp.
    cbn [Py.lower Py.contains]. rewrite IH. reflexivity.
Qed.

Lemma lower_char_idem (c : ascii) : Py.lower_char (Py.lower_char c) = Py.lower_char c.
Proof. destruct c as [[] [] [] [] [] [] [] []]; reflexivity. Qed.

Lemma lower_idem (s : string) : Py.lower (Py.lower s) = Py.lower s.
Proof.
  induction s as [|c s IH]; [reflexivity|].
  cbn [Py.lower]. rewrite lower_char_idem, IH. reflexivity.
Qed.

(** ** Searching the history *)

#[local] Instance newest_first_total : Total (@newest_first Args).
Proof. intros a b. unfold newest_first. lia. Qed.

#[local] Instance newest_first_trans : Transitive (@newest_first Args).
Proof. intros a b c. unfold newest_first. lia. Qed.

Lemma list_filter_length {A} (f : A -> bool) (l : list A) :
  (length (List.filter f l) <= length l)%nat.
Proof. induction l as [|x l IH]; simpl; [lia|]. destruct (f x); simpl; lia. Qed.

Lemma list_filter_Forall {A} (P : A -> Prop) (f : A -> bool) (l : list A) :
  Forall P l -> Forall P (List.filter f l).
Proof.
  induction 1 as [|x l Hx _ IH]; simpl; [constructor|].
  destruct (f x); [constructor; assumption|assumption].
Qed.

Lemma list_filter_holds {A} (f : A -> bool) (l : list A) :
  Forall (fun x => f x = true) (List.filter f l).
Proof.
  induction l as [|x l IH]; simpl; [constructor|].
  destruct (f x) eqn:E; [constructor; assumption|assumption].
Qed.

Lemma list_filter_StronglySorted {A} (R : relation A) (f : A -> bool) (l : list A) :
  StronglySorted R l -> StronglySorted R (List.filter f l).
Proof.
  induction 1 as [|x l _ IH Hx]; simpl; [constructor|].
  destruct (f x); [|exact IH].
  constructor; [exact IH|apply list_filter_Forall; exact Hx].
Qed.

Lemma take_StronglySorted {A} (R : relation A) (n : nat) (l : list A) :
  StronglySorted R l -> StronglySorted R (take n l).
Proof.
  intros H. revert n. induction H as [|x l _ IH Hx]; intros [|n]; simpl;
    try constructor; [apply IH|apply Forall_take; exact Hx].
Qed.

Lemma clamp_limit_spec (limit : Z) :
  clamp_limit limit = Z.min (Z.max limit 1) 500 /\ 1 <= clamp_limit limit <= 500.
Proof. unfold clamp_limit. lia. Qed.

Lemma select_requests_sorted pattern limit (w : World Args) :
  exists rows,
    select_requests pattern limit w = Returns rows w /\
    (length rows <= Z.to_nat limit)%nat /\
    StronglySorted newest_first rows /\
    Forall (fun r => r ∈ scrape_requests (db w)) rows /\
    (forall p, pattern = Some p ->
               Forall (fun r => Sql.like_nullable p (Request.domain r) = true) rows).
Proof.
  eexists. split; [reflexivity|].
  split; [rewrite length_take; lia|].
  split; [apply take_StronglySorted, StronglySorted_merge_sort; apply _|].
  split.
  - apply Forall_take. rewrite merge_sort_Permutation.
    destruct pattern as [p|].
    + apply list_filter_Forall. apply Forall_forall. auto.
    + apply Forall_forall. auto.
  - intros p ->. apply Forall_take. rewrite merge_sort_Permutation.
    apply (list_filter_holds (fun r => Sql.like_nullable p (Request.domain r))).
Qed.

(** C6 (amended): [search_history] returns, without changing the
    store, rows of [scrape_requests] ordered newest first by
    [created_at], at most min(max(limit, 1), 500) of them.  With a
    domain filter that is not empty after [strip()], every returned
    request has a domain that matches the LIKE pattern made of the
    stripped, lowercased filter between two [%]; when that filter
    holds neither [%] nor [_], this says that the domain contains it
    as a substring, letter case ignored. *)
Theorem search_history_filtered domain url_contains limit w :
  exists rows,
    search_history domain url_contains limit w = Returns rows w /\
    (length rows <= Z.to_nat (Z.min (Z.max limit 1) 500))%nat /\
    StronglySorted newest_first rows /\
    Forall (fun r => r ∈ scrape_requests (db w)) rows /\
    (forall given,
       domain = Some given ->
       Py.is_empty (Py.lower (Py.strip given)) = false ->
       Forall (fun r =>
                 Sql.like_nullable ("%" +:+ Py.lower (Py.strip given) +:+ "%")
                                   (Request.domain r) = true) rows /\
       (Sql.has_wildcard (Py.lower (Py.strip given)) = false ->
        Forall (fun r =>
                  exists d, Request.domain r = Some d /\
                            Py.contains (Py.lower (Py.strip given)) (Py.lower d)
                            = true) rows)).
Proof.
  destruct (select_requests_sorted (like_pattern (clean_domain_filter domain))
              (clamp_limit limit) w)
    as (rows & Hsel & Hlen & Hsorted & Hin & Hlike).
  eexists. split.
  { unfold search_history, init_db, mbind, mret, store_bind, store_ret.
    rewrite Hsel. reflexivity. }
  split.
  { etransitivity; [apply list_filter_length|].
    destruct (clamp_limit_spec limit) as [<- _]. exact Hlen. }
  split; [apply list_filter_StronglySorted; exact Hsorted|].
  split; [apply list_filter_Forall; exact Hin|].
  intros given -> Hf.
  assert (Hpat : like_pattern (clean_domain_filter (Some given))
                 = Some ("%" +:+ Py.lower (Py.strip given) +:+ "%")).
  { unfold clean_domain_filter, like_pattern, Py.truthy.
    destruct (Py.is_empty given) eqn:Eg.
    - destruct given; [discriminate Hf|discriminate Eg].
    - rewrite Hf. reflexivity. }
  specialize (Hlike _ Hpat).
  split; [apply list_filter_Forall; exact Hlike|].
  intros Hwild. apply list_filter_Forall.
  eapply Forall_impl; [exact Hlike|].
  intros r Hr. cbv beta in Hr.
  destruct (Request.domain r) as [d|]; [|discriminate Hr].
  exists d. split; [reflexivity|].
  cbn [Sql.like_nullable] in Hr.
  rewrite (like_contains _ d Hwild), lower_idem in Hr. exact Hr.
Qed.

(** ** Starting a request and the current request *)

Lemma next_rowid_positive (ids : list Z) : 1 <= next_rowid ids.
Proof.
  unfold next_rowid. induction ids as [|i ids IH]; simpl; lia.
Qed.

Lemma start_scrape_request_spec clk prompt (w : World Args) :
  exists request_id w',
    start_scrape_request clk prompt w = Returns request_id w' /\
    1 <= request_id /\
    Forall (fun r => Request.id r < request_id) (scrape_requests (db w)) /\
    lookup_request request_id w = None /\
    lookup_request request_id w'
    = Some (Request.mk request_id prompt None [] None None (sql_now clk) (sql_now clk)) /\
    thread_request_id w' = Some request_id /\
    (forall other, other <> request_id ->
                   lookup_request other w' = lookup_request other w) /\
    scraping_advice (db w') = scraping_advice (db w).
Proof.
  pose proof (next_rowid_fresh (scrape_requests (db w))) as Hfresh.
  pose proof (next_rowid_above (map Request.id (scrape_requests (db w)))) as Habove.
  rewrite Forall_fmap in Habove.
  eexists _, _. split; [reflexivity|].
  split; [apply next_rowid_positive|].
  split; [exact Habove|].
  unfold lookup_request. simpl.
  split; [apply find_request_absent; exact Hfresh|].
  rewrite !find_request_app, (find_request_absent Hfresh). simpl.
  rewrite Z.eqb_refl.
  split; [reflexivity|]. split; [reflexivity|]. split; [|reflexivity].
  intros other Hne. rewrite find_request_app. simpl.
  destruct (find_request other (scrape_requests (db w))); [reflexivity|].
  destruct (Z.eqb_spec (next_rowid (map Request.id (scrape_requests (db w)))) other);
    [congruence|reflexivity].
Qed.

(** [start_scrape_request] returns a positive key above every key in
    the table; the new request has the prompt, no step, no domain, no
    final result and no success flag; it becomes the current request;
    every other request and the advice table are as before. *)
Theorem start_scrape_request_fresh clk prompt (w : World Args) :
  exists request_id w',
    start_scrape_request clk prompt w = Returns request_id w' /\
    1 <= request_id /\
    Forall (fun r => Request.id r < request_id) (scrape_requests (db w)) /\
    lookup_request request_id w = None /\
    lookup_request request_id w'
    = Some (Request.mk request_id prompt None [] None None (sql_now clk) (sql_now clk)) /\
    thread_request_id w' = Some request_id /\
    (forall other, other <> request_id ->
                   lookup_request other w' = lookup_request other w) /\
    scraping_advice (db w') = scraping_advice (db w).
Proof. apply start_scrape_request_spec. Qed.

(** With [request_id] omitted and a current request set,
    [log_tool_call] does what it does with that id given, and the
    current request is the same afterwards, whether the call returns
    or raises. *)
Theorem log_tool_call_ambient clk url tool_name arguments result request_id w :
  thread_request_id w = Some request_id ->
  log_tool_call clk url tool_name arguments result None w
  = log_tool_call clk url tool_name arguments result (Some request_id) w /\
  thread_request_id
    (world_of (log_tool_call clk url tool_name arguments result None w))
  = Some request_id.
Proof.
  intros Hcur.
  rewrite (@log_tool_call_current clk url tool_name arguments result request_id w Hcur).
  split; [reflexivity|].
  destruct (lookup_request request_id w) as [r|] eqn:Hr.
  - destruct (@log_tool_call_found clk url tool_name arguments result request_id w r Hr)
      as (w' & Hrun & _ & _ & _ & Hthread).
    rewrite Hrun. simpl. congruence.
  - rewrite (@log_tool_call_missing clk url tool_name arguments result request_id w Hr).
    exact Hcur.
Qed.

(** A current request id that no row has is not repaired: with
    [request_id] omitted the call raises the not-found error for that
    id, creates no request and leaves the store as it is. *)
Theorem log_tool_call_stale_current clk url tool_name arguments result request_id w :
  thread_request_id w = Some request_id ->
  lookup_request request_id w = None ->
  log_tool_call clk url tool_name arguments result None w
  = Raises (NotFound request_id) w.
Proof.
  intros Hcur Hr.
  rewrite (@log_tool_call_current clk url tool_name arguments result request_id w Hcur).
  apply log_tool_call_missing. exact Hr.
Qed.

Lemma log_all_frame request_id calls : forall w r,
  lookup_request request_id w = Some r ->
  exists w' r',
    log_all request_id calls w = Returns tt w' /\
    lookup_request request_id w' = Some r' /\
    Request.prompt r' = Request.prompt r /\
    thread_request_id w' = thread_request_id w /\
    scraping_advice (db w') = scraping_advice (db w).
Proof.
  induction calls as [|c calls IH]; intros w r Hr.
  - exists w, r. auto.
  - destruct (@log_tool_call_found (tc_clock c) (tc_url c) (tc_tool_name c)
                (tc_arguments c) (tc_result c) request_id w r Hr)
      as (w1 & Hrun & Hrow & _ & Hadvice & Hthread).
    destruct (IH _ _ Hrow) as (w' & r' & Hrun' & Hrow' & Hprompt & Hthread' & Hadvice').
    exists w', r'. split.
    + cbn [log_all]. unfold mbind, store_bind, log_call. rewrite Hrun. exact Hrun'.
    + split; [exact Hrow'|]. split; [rewrite Hprompt; reflexivity|].
      split; congruence.
Qed.

Lemma log_all_ambient_current request_id calls : forall w r,
  thread_request_id w = Some request_id ->
  lookup_request request_id w = Some r ->
  log_all_ambient calls w = log_all request_id calls w.
Proof.
  induction calls as [|c calls IH]; intros w r Hcur Hr; [reflexivity|].
  cbn [log_all_ambient log_all]. unfold mbind, store_bind, log_call.
  rewrite (@log_tool_call_current (tc_clock c) (tc_url c) (tc_tool_name c)
             (tc_arguments c) (tc_result c) request_id w Hcur).
  destruct (@log_tool_call_found (tc_clock c) (tc_url c) (tc_tool_name c)
              (tc_arguments c) (tc_result c) request_id w r Hr)
    as (w1 & Hrun & Hrow & _ & _ & Hthread).
  rewrite Hrun. eapply IH; [congruence|exact Hrow].
Qed.

(** After [start_scrape_request], calls of [log_tool_call] without a
    [request_id] all go to the request just started: after N of them it
    holds exactly their N steps, numbered from 0, its prompt is the one
    given, its domain is that of the first URL, and it is still the
    current request. *)
Theorem start_then_log_all clk prompt calls (w : World Args) :
  exists request_id w1 w2 r,
    start_scrape_request clk prompt w = Returns request_id w1 /\
    log_all_ambient calls w1 = Returns tt w2 /\
    lookup_request request_id w2 = Some r /\
    Request.prompt r = prompt /\
    Request.steps_json r = logged_steps 0 calls /\
    Request.domain r = logged_domain None calls /\
    thread_request_id w2 = Some request_id.
Proof.
  destruct (start_scrape_request_spec clk prompt w)
    as (request_id & w1 & Hstart & _ & _ & _ & Hrow & Hcur & _).
  destruct (@log_all_found request_id calls w1 _ Hrow)
    as (w2 & r & Hrun & Hrow2 & Hsteps & Hdom & _).
  destruct (@log_all_frame request_id calls w1 _ Hrow)
    as (w2' & r' & Hrun' & Hrow2' & Hprompt & Hthread & _).
  assert (w2' = w2) as -> by congruence.
  assert (r' = r) as -> by congruence.
  exists request_id, w1, w2, r.
  split; [exact Hstart|].
  split; [rewrite (@log_all_ambient_current request_id calls w1 _ Hcur Hrow); exact Hrun|].
  split; [exact Hrow2|]. split; [exact Hprompt|].
  split; [exact Hsteps|]. split; [exact Hdom|]. congruence.
Qed.

(** Outside a session, that is with no current request, a run of calls
    without [request_id] behaves as if [start_scrape_request] had been
    called first with the placeholder prompt. *)
Theorem log_tool_call_outside_session c calls (w : World Args) :
  thread_request_id w = None ->
  log_all_ambient (c :: calls) w
  = (start_scrape_request (tc_clock c) "(auto-created from tool call)";;
     log_all_ambient (c :: calls)) w.
Proof.
  intros Hcur. cbn [log_all_ambient].
  unfold log_call, log_tool_call, start_scrape_request.
  run_store. rewrite Hcur. reflexivity.
Qed.

(** ** What the two updates change *)

Lemma update_request_frame request_id (set : Request.t Args -> Request.t Args) w :
  scraping_advice (db (world_of (update_request request_id set w)))
  = scraping_advice (db w) /\
  thread_request_id (world_of (update_request request_id set w))
  = thread_request_id w.
Proof. split; reflexivity. Qed.

Lemma update_request_final_result_effect clk request_id final_result success w r :
  lookup_request request_id w = Some r ->
  exists w' r',
    update_request_final_result clk request_id final_result success w
    = Returns tt w' /\
    lookup_request request_id w' = Some r' /\
    Request.final_result r'
    = match final_result with Some f => Some f | None => Request.final_result r end /\
    Request.success r'
    = match success with
      | Some b => Some (if b then 1 else 0)
      | None => Request.success r
      end /\
    Request.id r' = Request.id r /\
    Request.prompt r' = Request.prompt r /\
    Request.domain r' = Request.domain r /\
    Request.steps_json r' = Request.steps_json r /\
    Request.created_at r' = Request.created_at r /\
    (forall other, other <> request_id ->
                   lookup_request other w' = lookup_request other w) /\
    scraping_advice (db w') = scraping_advice (db w) /\
    thread_request_id w' = thread_request_id w.
Proof.
  intros Hr.
  assert (Hset : forall f s, (f <> None \/ s <> None) ->
            exists w' r',
              update_request request_id (set_final_result clk f s) w = Returns tt w' /\
              lookup_request request_id w' = Some r' /\
              r' = set_final_result clk f s r /\
              (forall other, other <> request_id ->
                             lookup_request other w' = lookup_request other w) /\
              scraping_advice (db w') = scraping_advice (db w) /\
              thread_request_id w' = thread_request_id w).
  { intros f s _. eexists _, _. split; [reflexivity|].
    pose proof (@lookup_update_request_same request_id (set_final_result clk f s) w
                  (fun r => eq_refl)) as H1.
    simpl in H1. rewrite Hr in H1. split; [exact H1|]. split; [reflexivity|].
    split; [|split; reflexivity].
    intros other Hne.
    apply (@lookup_update_request_other other request_id (set_final_result clk f s) w
             Hne (fun r => eq_refl)). }
  unfold update_request_final_result.
  destruct final_result as [f|], success as [b|];
    unfold init_db, mbind, mret, store_bind, store_ret;
    try (match goal with
         | |- context [set_final_result _ ?f ?s] =>
             destruct (Hset f s) as (w' & r' & Hrun & Hrow & -> & Hother & Ha & Ht);
             [first [left; discriminate|right; discriminate]|];
             exists w'; eexists; rewrite Hrun; split; [reflexivity|];
             split; [exact Hrow|]; repeat split; auto
         end).
  exists w, r. repeat split; auto.
Qed.

(** On an existing request, [update_request_final_result] returns
    normally; it writes the arguments that are given and keeps the
    stored value for the ones omitted; the id, prompt, domain, steps and
    creation time of the request, every other request, the advice table
    and the current request are as before. *)
Theorem update_request_final_result_found clk request_id final_result success w r :
  lookup_request request_id w = Some r ->
  exists w' r',
    update_request_final_result clk request_id final_result success w
    = Returns tt w' /\
    lookup_request request_id w' = Some r' /\
    Request.final_result r'
    = match final_result with Some f => Some f | None => Request.final_result r end /\
    Request.success r'
    = match success with
      | Some b => Some (if b then 1 else 0)
      | None => Request.success r
      end /\
    Request.id r' = Request.id r /\
    Request.prompt r' = Request.prompt r /\
    Request.domain r' = Request.domain r /\
    Request.steps_json r' = Request.steps_json r /\
    Request.created_at r' = Request.created_at r /\
    (forall other, other <> request_id ->
                   lookup_request other w' = lookup_request other w) /\
    scraping_advice (db w') = scraping_advice (db w) /\
    thread_request_id w' = thread_request_id w.
Proof. apply update_request_final_result_effect. Qed.

Lemma update_step_outcome_effect clk request_id step_id led_to_data evaluator_notes
    w r s :
  lookup_request request_id w = Some r ->
  0 <= step_id ->
  Request.steps_json r !! Z.to_nat step_id = Some s ->
  led_to_data <> None \/ evaluator_notes <> None ->
  exists w' r' s',
    update_step_outcome clk request_id step_id led_to_data evaluator_notes w
    = Returns tt w' /\
    lookup_request request_id w' = Some r' /\
    Request.steps_json r' !! Z.to_nat step_id = Some s' /\
    Step.same_log_entry s s' /\
    Step.led_to_data s'
    = match led_to_data with Some b => Some b | None => Step.led_to_data s end /\
    Step.evaluator_notes s'
    = match evaluator_notes with Some n => Some n | None => Step.evaluator_notes s end /\
    length (Request.steps_json r') = length (Request.steps_json r) /\
    (forall j, j <> Z.to_nat step_id ->
               Request.steps_json r' !! j = Request.steps_json r !! j) /\
    Request.id r' = Request.id r /\
    Request.prompt r' = Request.prompt r /\
    Request.domain r' = Request.domain r /\
    Request.final_result r' = Request.final_result r /\
    Request.success r' = Request.success r /\
    (forall other, other <> request_id ->
                   lookup_request other w' = lookup_request other w) /\
    scraping_advice (db w') = scraping_advice (db w) /\
    thread_request_id w' = thread_request_id w.
Proof.
  intros Hr Hpos Hs Hgiven.
  pose proof (lookup_lt_Some _ _ _ Hs) as Hlt.
  rewrite (@update_step_outcome_given clk request_id step_id led_to_data
             evaluator_notes w Hgiven), Hr.
  destruct (Z.ltb_spec step_id 0); [lia|].
  destruct (Z.leb_spec (Z.of_nat (length (Request.steps_json r))) step_id); [lia|].
  simpl.
  set (steps' := alter (set_outcome led_to_data evaluator_notes) (Z.to_nat step_id)
                       (Request.steps_json r)).
  pose proof (@lookup_update_request_same request_id (set_steps clk steps') w
                (fun r => eq_refl)) as Hrow.
  simpl in Hrow. rewrite Hr in Hrow.
  eexists _, (set_steps clk steps' r), (set_outcome led_to_data evaluator_notes s).
  split; [reflexivity|]. split; [exact Hrow|].
  cbn [set_steps Request.steps_json Request.id Request.prompt Request.domain
       Request.final_result Request.success].
  split; [unfold steps'; rewrite list_lookup_alter_eq, Hs; reflexivity|].
  split; [apply same_log_entry_set_outcome|].
  split; [destruct led_to_data, evaluator_notes; reflexivity|].
  split; [destruct led_to_data, evaluator_notes; reflexivity|].
  split; [apply length_alter|].
  split; [intros j Hj; apply list_lookup_alter_ne; congruence|].
  do 5 (split; [reflexivity|]).
  split; [|split; reflexivity].
  intros other Hne.
  apply (@lookup_update_request_other other request_id (set_steps clk steps') w
           Hne (fun r => eq_refl)).
Qed.

(** On an existing step, with at least one outcome given,
    [update_step_outcome] returns normally; that step gets the outcomes
    given and keeps the one omitted, and all its other fields; every
    other step of the request is the same object at the same index; the
    rest of the request, every other request, the advice table and the
    current request are as before. *)
Theorem update_step_outcome_found clk request_id step_id led_to_data evaluator_notes
    w r s :
  lookup_request request_id w = Some r ->
  0 <= step_id ->
  Request.steps_json r !! Z.to_nat step_id = Some s ->
  led_to_data <> None \/ evaluator_notes <> None ->
  exists w' r' s',
    update_step_outcome clk request_id step_id led_to_data evaluator_notes w
    = Returns tt w' /\
    lookup_request request_id w' = Some r' /\
    Request.steps_json r' !! Z.to_nat step_id = Some s' /\
    Step.same_log_entry s s' /\
    Step.led_to_data s'
    = match led_to_data with Some b => Some b | None => Step.led_to_data s end /\
    Step.evaluator_notes s'
    = match evaluator_notes with Some n => Some n | None => Step.evaluator_notes s end /\
    length (Request.steps_json r') = length (Request.steps_json r) /\
    (forall j, j <> Z.to_nat step_id ->
               Request.steps_json r' !! j = Request.steps_json r !! j) /\
    Request.id r' = Request.id r /\
    Request.prompt r' = Request.prompt r /\
    Request.domain r' = Request.domain r /\
    Request.final_result r' = Request.final_result r /\
    Request.success r' = Request.success r /\
    (forall other, other <> request_id ->
                   lookup_request other w' = lookup_request other w) /\
    scraping_advice (db w') = scraping_advice (db w) /\
    thread_request_id w' = thread_request_id w.
Proof. apply update_step_outcome_effect. Qed.

(** ** The invariant of the store *)

Lemma set_where_ids request_id (set : Request.t Args -> Request.t Args) rows :
  (forall r, Request.id (set r) = Request.id r) ->
  map Request.id (set_where request_id set rows) = map Request.id rows.
Proof.
  intros Hid. unfold set_where. induction rows as [|x rows IH]; simpl; [reflexivity|].
  rewrite IH. destruct (Request.id x =? request_id); [rewrite Hid|]; reflexivity.
Qed.

Lemma set_where_Forall (P : Request.t Args -> Prop) request_id
    (set : Request.t Args -> Request.t Args) rows :
  Forall P rows ->
  (forall x, x ∈ rows -> Request.id x = request_id -> P (set x)) ->
  Forall P (set_where request_id set rows).
Proof.
  unfold set_where. induction 1 as [|x rows Hx _ IH]; intros Hset; simpl;
    constructor.
  - destruct (Z.eqb_spec (Request.id x) request_id) as [E|E]; [|exact Hx].
    apply Hset; [left|exact E].
  - apply IH. intros y Hy. apply Hset. right. exact Hy.
Qed.

Lemma find_request_unique request_id (rows : list (Request.t Args)) r x :
  NoDup (map Request.id rows) ->
  find_request request_id rows = Some r ->
  x ∈ rows -> Request.id x = request_id -> x = r.
Proof.
  unfold find_request. induction rows as [|y rows IH]; simpl;
    intros Hnd Hfind Hx Hid; [discriminate|].
  apply NoDup_cons in Hnd as [Hy Hnd].
  destruct (Z.eqb_spec (Request.id y) request_id) as [E|E].
  - injection Hfind as <-. apply elem_of_cons in Hx as [->|Hx]; [reflexivity|].
    exfalso. apply Hy. rewrite E, <- Hid. apply list_elem_of_fmap_2. exact Hx.
  - apply elem_of_cons in Hx as [->|Hx]; [congruence|]. apply IH; assumption.
Qed.

Lemma find_request_elem_of request_id (rows : list (Request.t Args)) r :
  find_request request_id rows = Some r -> r ∈ rows.
Proof.
  unfold find_request. intros H. apply List.find_some in H as [H _].
  apply list_elem_of_In. exact H.
Qed.

Lemma step_ok_new_step clk url tool_name arguments result i :
  step_ok (new_step clk url tool_name arguments result i).
Proof. repeat split. Qed.

Lemma step_ok_set_outcome led_to_data evaluator_notes s :
  step_ok s -> step_ok (set_outcome led_to_data evaluator_notes s).
Proof. destruct led_to_data, evaluator_notes; intros H; exact H. Qed.

Lemma first_domain_alter led_to_data evaluator_notes i (l : list (Step.t Args)) :
  first_domain (alter (set_outcome led_to_data evaluator_notes) i l) = first_domain l.
Proof.
  destruct l as [|s l], i as [|i]; try reflexivity.
  simpl. destruct led_to_data, evaluator_notes; reflexivity.
Qed.

Lemma Forall_step_ok_alter led_to_data evaluator_notes i (l : list (Step.t Args)) :
  Forall step_ok l ->
  Forall step_ok (alter (set_outcome led_to_data evaluator_notes) i l).
Proof.
  intros H. revert i. induction H as [|s l Hs Hl IH]; intros [|i]; simpl;
    constructor; auto using step_ok_set_outcome.
  apply IH.
Qed.

Lemma request_ok_append clk url tool_name arguments result (r x : Request.t Args) :
  request_ok r ->
  request_ok (append_step clk url tool_name arguments result
                          (Request.steps_json r, Request.domain r) x).
Proof.
  intros (Hidx & Hsteps & Hdom). unfold request_ok.
  cbn [append_step Request.steps_json Request.domain].
  split; [apply well_indexed_snoc; [exact Hidx|reflexivity]|].
  split; [apply Forall_app; split; [exact Hsteps|];
          constructor; [apply step_ok_new_step|constructor]|].
  rewrite Hdom. destruct (Request.steps_json r) as [|s l] eqn:E; [reflexivity|].
  simpl. rewrite or_else_keeps; [reflexivity|].
  apply Forall_cons in Hsteps as [(Hs & _) _]. rewrite Hs.
  apply domain_from_url_not_empty.
Qed.

Lemma request_ok_set_final_result clk final_result success (r : Request.t Args) :
  request_ok r -> request_ok (set_final_result clk final_result success r).
Proof. intros H. exact H. Qed.

Lemma request_ok_set_outcome clk led_to_data evaluator_notes i (r : Request.t Args) :
  request_ok r ->
  request_ok (set_steps clk (alter (set_outcome led_to_data evaluator_notes) i
                                   (Request.steps_json r)) r).
Proof.
  intros (Hidx & Hsteps & Hdom). unfold request_ok.
  cbn [set_steps Request.steps_json Request.domain].
  split; [eapply well_indexed_same_log_entry;
          [apply Forall2_same_log_entry_alter|exact Hidx]|].
  split; [apply Forall_step_ok_alter; exact Hsteps|].
  rewrite first_domain_alter. exact Hdom.
Qed.

Lemma log_tool_call_world clk url tool_name arguments result request_id w r :
  lookup_request request_id w = Some r ->
  log_tool_call clk url tool_name arguments result (Some request_id) w
  = Returns tt
      (mkWorld
         (mkDB (set_where request_id
                  (append_step clk url tool_name arguments result
                               (Request.steps_json r, Request.domain r))
                  (scrape_requests (db w)))
               (scraping_advice (db w)))
         (thread_request_id w)).
Proof.
  intros Hr. unfold log_tool_call, log_tool_call_select, log_tool_call_update.
  run_store. rewrite Hr. reflexivity.
Qed.

Lemma store_ok_thread (w : World Args) current :
  store_ok w -> store_ok (mkWorld (db w) current).
Proof. intros H. exact H. Qed.

Lemma store_ok_set_where request_id (set : Request.t Args -> Request.t Args)
    (w : World Args) :
  store_ok w ->
  (forall r, Request.id (set r) = Request.id r) ->
  (forall x, x ∈ scrape_requests (db w) -> Request.id x = request_id ->
             request_ok (set x)) ->
  store_ok (mkWorld (mkDB (set_where request_id set (scrape_requests (db w)))
                          (scraping_advice (db w)))
                    (thread_request_id w)).
Proof.
  intros (Hnd & Hpos & Hok & Hadv) Hid Hset. unfold store_ok. simpl.
  rewrite set_where_ids by exact Hid.
  split; [exact Hnd|]. split; [|split; [|exact Hadv]].
  - apply set_where_Forall; [exact Hpos|].
    intros x Hx _. rewrite Hid. rewrite Forall_forall in Hpos. apply Hpos, Hx.
  - apply set_where_Forall; assumption.
Qed.

Lemma store_ok_insert_request (new : Request.t Args) (w : World Args) current :
  store_ok w ->
  Request.id new = next_rowid (map Request.id (scrape_requests (db w))) ->
  request_ok new ->
  store_ok (mkWorld (mkDB (scrape_requests (db w) ++ [new]) (scraping_advice (db w)))
                    current).
Proof.
  intros (Hnd & Hpos & Hok & Hadv) Hid Hnew. unfold store_ok. simpl.
  split; [|split; [|split; [|exact Hadv]]].
  - rewrite map_app. apply NoDup_app. split; [exact Hnd|].
    split; [|simpl; apply NoDup_singleton].
    intros i Hi Hi'. simpl in Hi'. apply list_elem_of_singleton in Hi'. subst i.
    pose proof (next_rowid_above (map Request.id (scrape_requests (db w)))) as H.
    rewrite Forall_forall in H. specialize (H _ Hi). lia.
  - apply Forall_app. split; [exact Hpos|]. constructor; [|constructor].
    rewrite Hid. apply next_rowid_positive.
  - apply Forall_app. split; [exact Hok|]. constructor; [exact Hnew|constructor].
Qed.

Lemma store_ok_log_explicit clk url tool_name arguments result request_id w :
  store_ok w ->
  store_ok (world_of (log_tool_call clk url tool_name arguments result
                                    (Some request_id) w)).
Proof.
  intros Hw. destruct (lookup_request request_id w) as [r|] eqn:Hr.
  - rewrite (@log_tool_call_world clk url tool_name arguments result request_id w r Hr).
    cbn [world_of]. apply store_ok_set_where; [exact Hw| |].
    + intros x. apply append_step_id.
    + intros x _ _. apply request_ok_append.
      destruct Hw as (_ & _ & Hok & _). rewrite Forall_forall in Hok.
      apply Hok. eapply find_request_elem_of. exact Hr.
  - rewrite (@log_tool_call_missing clk url tool_name arguments result request_id w Hr).
    exact Hw.
Qed.

Lemma exec_store_ok op (w : World Args) : store_ok w -> store_ok (exec op w).
Proof.
  intros Hw.
  destruct op as [cur|clk p|c target|clk target f sc|clk target i l n|d u l|clk d a|d l|d];
    cbn [exec].
  - apply store_ok_thread. exact Hw.
  - unfold start_scrape_request. run_store.
    apply store_ok_insert_request; [exact Hw|reflexivity|].
    split; [intros i s Hs; discriminate Hs|]. split; [constructor|reflexivity].
  - unfold log_call. destruct target as [target|].
    + apply store_ok_log_explicit. exact Hw.
    + destruct (thread_request_id w) as [target|] eqn:Hcur.
      * rewrite (@log_tool_call_current (tc_clock c) (tc_url c) (tc_tool_name c)
                   (tc_arguments c) (tc_result c) target w Hcur).
        apply store_ok_log_explicit. exact Hw.
      * rewrite (@log_tool_call_auto_create (tc_clock c) (tc_url c) (tc_tool_name c)
                   (tc_arguments c) (tc_result c) w Hcur).
        cbn [world_of]. apply store_ok_insert_request; [exact Hw|reflexivity|].
        split; [|split; [|reflexivity]].
        -- apply (well_indexed_snoc (l:=[])); [|reflexivity].
           intros i s Hs. discriminate Hs.
        -- constructor; [apply step_ok_new_step|constructor].
  - unfold update_request_final_result.
    destruct f, sc; unfold init_db, mbind, mret, store_bind, store_ret;
      try exact Hw;
      (apply store_ok_set_where; [exact Hw|reflexivity|];
       intros x Hx _; apply request_ok_set_final_result;
       destruct Hw as (_ & _ & Hok & _); rewrite Forall_forall in Hok;
       apply Hok, Hx).
  - destruct l as [b|] eqn:El, n as [t|] eqn:En; try exact Hw;
      first [rewrite update_step_outcome_given by (left; discriminate)
            |rewrite update_step_outcome_given by (right; discriminate)];
      (destruct (lookup_request target w) as [r|] eqn:Hr; [|exact Hw]);
      (match goal with |- context [if ?c then _ else _] => destruct c end;
       [exact Hw|]);
      (apply store_ok_set_where; [exact Hw|reflexivity|];
       intros x Hx Hid;
       assert (x = r) as ->
         by (destruct Hw as (Hnd & _); eapply find_request_unique; eassumption);
       apply request_ok_set_outcome;
       destruct Hw as (_ & _ & Hok & _); rewrite Forall_forall in Hok;
       apply Hok, Hx).
  - rewrite search_history_world. exact Hw.
  - unfold add_advice. run_store.
    destruct Hw as (Hnd & Hpos & Hok & Hand & Hapos). unfold store_ok. simpl.
    split; [exact Hnd|]. split; [exact Hpos|]. split; [exact Hok|]. split.
    + rewrite map_app. apply NoDup_app. split; [exact Hand|].
      split; [|simpl; apply NoDup_singleton].
      intros i Hi Hi'. simpl in Hi'. apply list_elem_of_singleton in Hi'. subst i.
      pose proof (next_rowid_above (map Advice.id (scraping_advice (db w)))) as H.
      rewrite Forall_forall in H. specialize (H _ Hi). lia.
    + apply Forall_app. split; [exact Hapos|]. constructor; [|constructor].
      apply next_rowid_positive.
  - rewrite get_advice_world. exact Hw.
  - rewrite get_advice_for_domain_world. exact Hw.
Qed.

Lemma exec_all_store_ok ops : forall w : World Args,
  store_ok w -> store_ok (exec_all ops w).
Proof.
  induction ops as [|op ops IH]; intros w Hw; [exact Hw|].
  apply IH, exec_store_ok, Hw.
Qed.

(** Whatever public functions of storage.py have been called on a new
    database, in whatever order and with whatever arguments: primary
    keys are positive and distinct in both tables; every step of every
    request carries its position as [step_id], and its [domain],
    [arguments_json] and [result_summary] are the ones computed from
    its [url], [arguments] and [result]; and the domain of a request is
    NULL exactly while it has no step, and otherwise the domain of its
    step 0. *)
Theorem store_invariant ops : store_ok (exec_all ops new_world).
Proof.
  apply exec_all_store_ok. unfold store_ok, new_world. simpl.
  repeat split; constructor.
Qed.

(** In a store that satisfies the invariant, looking a request up by the
    id of a stored row gives that row. *)
Lemma lookup_request_by_id (w : World Args) r :
  store_ok w -> r ∈ scrape_requests (db w) ->
  lookup_request (Request.id r) w = Some r.
Proof.
  intros (Hnd & _) Hr. unfold lookup_request.
  destruct (find_request (Request.id r) (scrape_requests (db w))) as [x|] eqn:E.
  - f_equal. symmetry. eapply find_request_unique; eauto.
  - apply find_request_None in E. rewrite Forall_forall in E.
    exfalso. exact (E _ Hr eq_refl).
Qed.

(** ** More on strings: substrings, stripping, lowercase *)

Lemma startswith_app (n post : string) : Py.startswith n (n +:+ post) = true.
Proof.
  induction n as [|c n IH]; [reflexivity|].
  rewrite append_cons. cbn [Py.startswith]. rewrite Ascii.eqb_refl. exact IH.
Qed.

Lemma contains_cons (n : string) (c : ascii) (s : string) :
  Py.contains n s = true -> Py.contains n (String c s) = true.
Proof. intros H. cbn [Py.contains]. rewrite H. apply orb_true_r. Qed.

Lemma contains_app (n pre post : string) :
  Py.contains n (pre +:+ n +:+ post) = true.
Proof.
  induction pre as [|c pre IH].
  - change ("" +:+ n +:+ post) with (n +:+ post).
    destruct (n +:+ post) eqn:E; cbn [Py.contains]; rewrite <- E, startswith_app;
      reflexivity.
  - rewrite append_cons. apply contains_cons, IH.
Qed.

Lemma append_assoc (a b c : string) : (a +:+ b) +:+ c = a +:+ b +:+ c.
Proof.
  induction a as [|x a IH]; [reflexivity|].
  rewrite !append_cons, IH. reflexivity.
Qed.

Lemma contains_split (n b : string) :
  Py.contains n b = true -> exists pre post, b = pre +:+ n +:+ post.
Proof.
  intros H. induction b as [|x b IH].
  - cbn [Py.contains] in H. rewrite orb_false_r in H.
    destruct n; [|discriminate H]. exists "", "". reflexivity.
  - cbn [Py.contains] in H. apply orb_true_iff in H as [H|H].
    + exists "". clear IH. revert x b H.
      induction n as [|y n IHn]; intros x b H.
      * exists (String x b). reflexivity.
      * cbn [Py.startswith] in H. apply andb_true_iff in H as [Hxy H].
        apply Ascii.eqb_eq in Hxy. subst y.
        destruct b as [|x' b].
        -- destruct n; [|discriminate H]. exists "". reflexivity.
        -- destruct n as [|y' n'].
           ++ exists (String x' b). reflexivity.
           ++ destruct (IHn x' b H) as (post & Hpost).
              exists post. change ("" +:+ String x (String y' n') +:+ post)
                with (String x ("" +:+ String y' n' +:+ post)).
              rewrite <- Hpost. reflexivity.
    + destruct (IH H) as (pre & post & ->).
      exists (String x pre), post. reflexivity.
Qed.

Lemma contains_inside (n a b c : string) :
  Py.contains n b = true -> Py.contains n (a +:+ b +:+ c) = true.
Proof.
  intros H. destruct (contains_split _ _ H) as (pre & post & ->).
  rewrite !append_assoc, <- (append_assoc a pre). apply contains_app.
Qed.

Lemma contains_trans (a b c : string) :
  Py.contains a b = true -> Py.contains b c = true -> Py.contains a c = true.
Proof.
  intros Hab Hbc. destruct (contains_split _ _ Hbc) as (pre & post & ->).
  apply contains_inside. exact Hab.
Qed.

Lemma contains_after (n a b : string) :
  Py.contains n b = true -> Py.contains n (a +:+ b) = true.
Proof.
  intros H. rewrite <- (append_empty_r b). apply contains_inside. exact H.
Qed.

Lemma lower_app (a b : string) : Py.lower (a +:+ b) = Py.lower a +:+ Py.lower b.
Proof.
  induction a as [|c a IH]; [reflexivity|].
  rewrite append_cons. cbn [Py.lower]. rewrite IH, append_cons. reflexivity.
Qed.

Lemma lstrip_ws_suffix (s : string) : exists pre, s = pre +:+ Py.lstrip_ws s.
Proof.
  induction s as [|c s (pre & IH)]; [exists ""; reflexivity|].
  cbn [Py.lstrip_ws]. destruct (Py.isspace c).
  - exists (String c pre). rewrite append_cons, <- IH. reflexivity.
  - exists "". reflexivity.
Qed.

Lemma rstrip_ws_prefix (s : string) : exists post, s = Py.rstrip_ws s +:+ post.
Proof.
  induction s as [|c s (post & IH)]; [exists ""; reflexivity|].
  cbn [Py.rstrip_ws]. destruct (Py.is_empty (Py.rstrip_ws s) && Py.isspace c).
  - exists (String c s). reflexivity.
  - exists post. rewrite append_cons, <- IH. reflexivity.
Qed.

Lemma strip_inside (s : string) : exists pre post, s = pre +:+ Py.strip s +:+ post.
Proof.
  destruct (lstrip_ws_suffix s) as (pre & Hpre).
  destruct (rstrip_ws_prefix (Py.lstrip_ws s)) as (post & Hpost).
  exists pre, post. unfold Py.strip. rewrite <- Hpost. exact Hpre.
Qed.

Lemma contains_refl (s : string) : Py.contains s s = true.
Proof.
  pose proof (contains_app s "" "") as H.
  change ("" +:+ s +:+ "") with (s +:+ "") in H. rewrite append_empty_r in H.
  exact H.
Qed.

Lemma contains_lower_strip (s : string) :
  Py.contains (Py.lower (Py.strip s)) (Py.lower s) = true.
Proof.
  destruct (strip_inside s) as (pre & post & H).
  rewrite H at 2. rewrite !lower_app. apply contains_app.
Qed.

(** ** LIKE finds every literal occurrence *)

Lemma like_prefix_complete (p : string) : forall s,
  Py.startswith (Py.lower p) (Py.lower s) = true ->
  Sql.like (p +:+ "%") s = true.
Proof.
  induction p as [|c p IH]; intros s H.
  - apply like_only_percent.
  - destruct s as [|d s]; [discriminate H|].
    cbn [Py.lower Py.startswith] in H. apply andb_true_iff in H as [Hcd H].
    rewrite append_cons.
    destruct (Ascii.eqb_spec c "%") as [->|Hpc].
    + rewrite like_percent, (like_percent _ s), (IH s H).
      rewrite orb_true_l. apply orb_true_r.
    + destruct (Ascii.eqb_spec c "_") as [->|Hus].
      * cbn [Sql.like]. simpl. apply IH, H.
      * rewrite like_literal by (apply Ascii.eqb_neq; assumption).
        rewrite Hcd. apply IH, H.
Qed.

Lemma like_contains_complete (p s : string) :
  Py.contains (Py.lower p) (Py.lower s) = true ->
  Sql.like ("%" +:+ p +:+ "%") s = true.
Proof.
  change ("%" +:+ p +:+ "%") with (String "%" (p +:+ "%")).
  induction s as [|d s IH]; intros H.
  - cbn [Py.lower Py.contains] in H. rewrite orb_false_r in H.
    rewrite like_percent, (like_prefix_complete p "" H). reflexivity.
  - cbn [Py.lower Py.contains] in H. apply orb_true_iff in H as [H|H].
    + rewrite like_percent, (like_prefix_complete p (String d s) H). reflexivity.
    + rewrite like_percent, (IH H). apply orb_true_r.
Qed.

(** ** What a search returns, and what it leaves out *)

Lemma list_filter_true {A} (l : list A) : List.filter (fun _ => true) l = l.
Proof. induction l as [|x l IH]; simpl; [reflexivity|]. rewrite IH. reflexivity. Qed.

Lemma has_matching_step_spec url_contains (steps : list (Step.t Args)) :
  has_matching_step url_contains steps = true <->
  exists s, s ∈ steps /\
            Py.contains (Py.lower url_contains) (Py.lower (Step.url s)) = true.
Proof.
  unfold has_matching_step.
  induction steps as [|s steps IH]; simpl.
  - split; [discriminate|]. intros (s & Hs & _). inversion Hs.
  - destruct (Py.contains (Py.lower url_contains) (Py.lower (Step.url s))) eqn:E.
    + split; [|reflexivity]. intros _. exists s. split; [left|exact E].
    + rewrite IH. split.
      * intros (x & Hx & Hc). exists x. split; [right; exact Hx|exact Hc].
      * intros (x & Hx & Hc). apply elem_of_cons in Hx as [->|Hx]; [congruence|].
        exists x. split; assumption.
Qed.

Lemma search_history_unfold domain url_contains limit (w : World Args) :
  search_history domain url_contains limit w
  = Returns
      (List.filter
         (fun row =>
            match Py.truthy (Some (Py.strip (Py.or_else url_contains ""))) with
            | Some u => has_matching_step u (Request.steps_json row)
            | None => true
            end)
         (take (Z.to_nat (clamp_limit limit))
               (merge_sort newest_first
                  match like_pattern (clean_domain_filter domain) with
                  | Some p => List.filter
                                (fun r => Sql.like_nullable p (Request.domain r))
                                (scrape_requests (db w))
                  | None => scrape_requests (db w)
                  end)))
      w.
Proof. reflexivity. Qed.

(** The URL filter of [search_history] is applied to the rows the
    query has already limited: the result is the result of the same
    search without URL filter, with the requests removed that have no
    step whose URL contains the stripped filter, letter case ignored.
    The requests that stay keep all their steps.  A filter that is
    omitted or blank removes nothing. *)
Theorem search_history_url_filter domain url_contains limit (w : World Args) :
  exists unfiltered rows,
    search_history domain None limit w = Returns unfiltered w /\
    search_history domain url_contains limit w = Returns rows w /\
    (forall given,
       url_contains = Some given ->
       Py.is_empty (Py.strip given) = false ->
       rows = List.filter
                (fun r => has_matching_step (Py.strip given) (Request.steps_json r))
                unfiltered /\
       Forall (fun r => r ∈ scrape_requests (db w) /\
                        exists s, s ∈ Request.steps_json r /\
                                  Py.contains (Py.lower (Py.strip given))
                                              (Py.lower (Step.url s)) = true) rows) /\
    (url_contains = None \/
     (exists given, url_contains = Some given /\ Py.is_empty (Py.strip given) = true) ->
     rows = unfiltered).
Proof.
  eexists _, _. rewrite !search_history_unfold.
  split; [cbn [Py.or_else Py.truthy Py.strip Py.lstrip_ws Py.rstrip_ws Py.is_empty];
          rewrite list_filter_true; reflexivity|].
  split; [reflexivity|].
  assert (Hstrip : forall given,
            Py.strip (Py.or_else (Some given) "") = Py.strip given).
  { intros given. unfold Py.or_else, Py.truthy.
    destruct given; reflexivity. }
  split.
  - intros given -> Hne. rewrite Hstrip. unfold Py.truthy. rewrite Hne.
    split; [reflexivity|].
    apply Forall_forall. intros r Hr.
    apply list_elem_of_In, List.filter_In in Hr as [Hr Hmatch].
    apply list_elem_of_In in Hr. split.
    + apply elem_of_take in Hr as (i & Hr & _).
      apply list_elem_of_lookup_2 in Hr. rewrite merge_sort_Permutation in Hr.
      destruct (like_pattern (clean_domain_filter domain)); [|exact Hr].
      apply list_elem_of_In, List.filter_In in Hr as [Hr _].
      apply list_elem_of_In. exact Hr.
    + apply has_matching_step_spec. exact Hmatch.
  - intros [->|(given & -> & Hblank)].
    + cbn [Py.or_else Py.truthy Py.strip Py.lstrip_ws Py.rstrip_ws Py.is_empty].
      apply list_filter_true.
    + rewrite Hstrip. unfold Py.truthy. rewrite Hblank. apply list_filter_true.
Qed.

(** Without filters, and with no more requests stored than the clamped
    limit, [search_history] returns every stored request, each once. *)
Theorem search_history_all limit (w : World Args) :
  (length (scrape_requests (db w)) <= Z.to_nat (clamp_limit limit))%nat ->
  exists rows,
    search_history None None limit w = Returns rows w /\
    rows ≡ₚ scrape_requests (db w).
Proof.
  intros Hlen. eexists. rewrite search_history_unfold. split; [reflexivity|].
  cbn [Py.or_else Py.truthy Py.strip Py.lstrip_ws Py.rstrip_ws Py.is_empty
       clean_domain_filter like_pattern].
  rewrite list_filter_true.
  rewrite take_ge by (rewrite merge_sort_Permutation; exact Hlen).
  apply merge_sort_Permutation.
Qed.

Lemma search_history_finds given limit (w : World Args) r d :
  r ∈ scrape_requests (db w) ->
  Request.domain r = Some d ->
  Py.is_empty (Py.lower (Py.strip given)) = false ->
  Py.contains (Py.lower (Py.strip given)) (Py.lower d) = true ->
  (length (List.filter
             (fun x => Sql.like_nullable ("%" +:+ Py.lower (Py.strip given) +:+ "%")
                                         (Request.domain x))
             (scrape_requests (db w)))
   <= Z.to_nat (clamp_limit limit))%nat ->
  exists rows,
    search_history (Some given) None limit w = Returns rows w /\ r ∈ rows.
Proof.
  intros Hr Hd Hne Hsub Hlen.
  eexists. rewrite search_history_unfold. split; [reflexivity|].
  cbn [Py.or_else Py.truthy Py.strip Py.lstrip_ws Py.rstrip_ws Py.is_empty].
  rewrite list_filter_true.
  assert (Hpat : like_pattern (clean_domain_filter (Some given))
                 = Some ("%" +:+ Py.lower (Py.strip given) +:+ "%")).
  { unfold clean_domain_filter, like_pattern, Py.truthy.
    destruct (Py.is_empty given) eqn:Eg.
    - destruct given; [discriminate Hne|discriminate Eg].
    - rewrite Hne. reflexivity. }
  rewrite Hpat.
  rewrite take_ge by (rewrite merge_sort_Permutation; exact Hlen).
  rewrite merge_sort_Permutation.
  apply list_elem_of_In, List.filter_In. split; [apply list_elem_of_In; exact Hr|].
  rewrite Hd. cbn [Sql.like_nullable]. apply like_contains_complete.
  rewrite lower_idem. exact Hsub.
Qed.

(** With a domain filter and no URL filter, a stored request whose
    domain contains the stripped filter, letter case ignored, is
    returned, provided the requests matching the LIKE pattern are no
    more than the clamped limit. *)
Theorem search_history_finds_domain given limit (w : World Args) r d :
  r ∈ scrape_requests (db w) ->
  Request.domain r = Some d ->
  Py.is_empty (Py.lower (Py.strip given)) = false ->
  Py.contains (Py.lower (Py.strip given)) (Py.lower d) = true ->
  (length (List.filter
             (fun x => Sql.like_nullable ("%" +:+ Py.lower (Py.strip given) +:+ "%")
                                         (Request.domain x))
             (scrape_requests (db w)))
   <= Z.to_nat (clamp_limit limit))%nat ->
  exists rows,
    search_history (Some given) None limit w = Returns rows w /\ r ∈ rows.
Proof. apply search_history_finds. Qed.

(** Insert and look up: a stored request is found by searching for its
    own domain (when that is not blank), provided the requests matching
    the pattern are no more than the clamped limit. *)
Theorem search_history_finds_own_domain limit (w : World Args) r d :
  r ∈ scrape_requests (db w) ->
  Request.domain r = Some d ->
  Py.is_empty (Py.lower (Py.strip d)) = false ->
  (length (List.filter
             (fun x => Sql.like_nullable ("%" +:+ Py.lower (Py.strip d) +:+ "%")
                                         (Request.domain x))
             (scrape_requests (db w)))
   <= Z.to_nat (clamp_limit limit))%nat ->
  exists rows,
    search_history (Some d) None limit w = Returns rows w /\ r ∈ rows.
Proof.
  intros Hr Hd Hne Hlen.
  eapply search_history_finds; eauto using contains_lower_strip.
Qed.

(** ** The advice table *)

Lemma add_advice_unfold clk domain advice (w : World Args) :
  add_advice clk domain advice w
  = Returns (next_rowid (map Advice.id (scraping_advice (db w))))
      (mkWorld
         (mkDB (scrape_requests (db w))
               (scraping_advice (db w) ++
                [Advice.mk (next_rowid (map Advice.id (scraping_advice (db w))))
                           (Py.lstrip "www." (Py.lower (Py.strip domain)))
                           advice (sql_now clk)]))
         (thread_request_id w)).
Proof. reflexivity. Qed.

(** [add_advice] never fails and only appends: it returns a positive
    key above every key in the advice table and adds one row with the
    normalized domain and the advice text as given; the rows that were
    there, also those for the same domain, the requests and the current
    request are as before. *)
Theorem add_advice_appends clk domain advice (w : World Args) :
  exists advice_id w',
    add_advice clk domain advice w = Returns advice_id w' /\
    1 <= advice_id /\
    Forall (fun a => Advice.id a < advice_id) (scraping_advice (db w)) /\
    scraping_advice (db w')
    = scraping_advice (db w) ++
      [Advice.mk advice_id (Py.lstrip "www." (Py.lower (Py.strip domain)))
                 advice (sql_now clk)] /\
    scrape_requests (db w') = scrape_requests (db w) /\
    thread_request_id w' = thread_request_id w.
Proof.
  eexists _, _. split; [apply add_advice_unfold|].
  split; [apply next_rowid_positive|].
  split; [|repeat split].
  pose proof (next_rowid_above (map Advice.id (scraping_advice (db w)))) as H.
  rewrite Forall_fmap in H. exact H.
Qed.

#[local] Instance advice_newest_first_total : Total advice_newest_first.
Proof. intros a b. unfold advice_newest_first. lia. Qed.

#[local] Instance advice_newest_first_trans : Transitive advice_newest_first.
Proof. intros a b c. unfold advice_newest_first. lia. Qed.

Lemma get_advice_unfold domain limit (w : World Args) :
  get_advice domain limit w
  = Returns
      (take (Z.to_nat (clamp_limit limit))
            (merge_sort advice_newest_first
               match like_pattern (clean_domain_filter domain) with
               | Some p => List.filter (fun a => Sql.like p (Advice.domain a))
                                       (scraping_advice (db w))
               | None => scraping_advice (db w)
               end))
      w.
Proof. reflexivity. Qed.

Lemma like_pattern_given given :
  Py.is_empty (Py.lower (Py.strip given)) = false ->
  like_pattern (clean_domain_filter (Some given))
  = Some ("%" +:+ Py.lower (Py.strip given) +:+ "%").
Proof.
  intros Hne. unfold clean_domain_filter, like_pattern, Py.truthy.
  destruct (Py.is_empty given) eqn:Eg.
  - destruct given; [discriminate Hne|discriminate Eg].
  - rewrite Hne. reflexivity.
Qed.

Lemma like_pattern_blank given :
  Py.is_empty (Py.lower (Py.strip given)) = true ->
  like_pattern (clean_domain_filter (Some given)) = None.
Proof.
  intros Hb. unfold clean_domain_filter, like_pattern, Py.truthy.
  destruct (Py.is_empty given) eqn:Eg; [reflexivity|].
  rewrite Hb. reflexivity.
Qed.

(** [get_advice] returns, without changing the store, rows of the
    advice table ordered newest first, at most min(max(limit, 1), 500)
    of them.  With a domain filter that is not blank every row matches
    the LIKE pattern made of the stripped, lowercased filter between two
    [%], which for a filter without [%] and [_] means that the row's
    domain contains it, letter case ignored.  With the filter omitted
    or blank, and no more rows stored than the clamped limit, every row
    is returned. *)
Theorem get_advice_filtered domain limit (w : World Args) :
  exists rows,
    get_advice domain limit w = Returns rows w /\
    (length rows <= Z.to_nat (Z.min (Z.max limit 1) 500))%nat /\
    StronglySorted advice_newest_first rows /\
    Forall (fun a => a ∈ scraping_advice (db w)) rows /\
    (forall given,
       domain = Some given ->
       Py.is_empty (Py.lower (Py.strip given)) = false ->
       Forall (fun a => Sql.like ("%" +:+ Py.lower (Py.strip given) +:+ "%")
                                 (Advice.domain a) = true) rows /\
       (Sql.has_wildcard (Py.lower (Py.strip given)) = false ->
        Forall (fun a => Py.contains (Py.lower (Py.strip given))
                                     (Py.lower (Advice.domain a)) = true) rows)) /\
    ((domain = None \/
      exists given, domain = Some given /\
                    Py.is_empty (Py.lower (Py.strip given)) = true) ->
     (length (scraping_advice (db w)) <= Z.to_nat (clamp_limit limit))%nat ->
     rows ≡ₚ scraping_advice (db w)).
Proof.
  eexists. split; [apply get_advice_unfold|].
  split.
  { rewrite length_take. destruct (clamp_limit_spec limit) as [<- _]. lia. }
  split; [apply take_StronglySorted, StronglySorted_merge_sort; apply _|].
  split.
  { apply Forall_take. rewrite merge_sort_Permutation.
    destruct (like_pattern (clean_domain_filter domain)).
    - apply list_filter_Forall, Forall_forall. auto.
    - apply Forall_forall. auto. }
  split.
  - intros given -> Hne. rewrite (like_pattern_given _ Hne).
    assert (Hlike : Forall
              (fun a => Sql.like ("%" +:+ Py.lower (Py.strip given) +:+ "%")
                                 (Advice.domain a) = true)
              (take (Z.to_nat (clamp_limit limit))
                 (merge_sort advice_newest_first
                    (List.filter
                       (fun a => Sql.like ("%" +:+ Py.lower (Py.strip given) +:+ "%")
                                          (Advice.domain a))
                       (scraping_advice (db w)))))).
    { apply Forall_take. rewrite merge_sort_Permutation.
      apply (list_filter_holds
               (fun a => Sql.like ("%" +:+ Py.lower (Py.strip given) +:+ "%")
                                  (Advice.domain a))). }
    split; [exact Hlike|].
    intros Hwild. eapply Forall_impl; [exact Hlike|].
    intros a Ha. cbv beta in Ha.
    rewrite like_contains, lower_idem in Ha by exact Hwild. exact Ha.
  - intros Hblank Hlen.
    assert (Hpat : like_pattern (clean_domain_filter domain) = None).
    { destruct Hblank as [->|(given & -> & Hb)];
        [reflexivity|apply like_pattern_blank; exact Hb]. }
    rewrite Hpat.
    rewrite take_ge by (rewrite merge_sort_Permutation; exact Hlen).
    apply merge_sort_Permutation.
Qed.

Lemma contains_concat (sep x : string) (l : list string) :
  x ∈ l -> Py.contains x (String.concat sep l) = true.
Proof.
  induction l as [|y l IH]; intros Hx; [inversion Hx|].
  destruct l as [|z l].
  - apply list_elem_of_singleton in Hx. subst y. apply contains_refl.
  - change (String.concat sep (y :: z :: l))
      with (y +:+ sep +:+ String.concat sep (z :: l)).
    apply elem_of_cons in Hx as [->|Hx].
    + apply (contains_app y "" _).
    + rewrite <- append_assoc.
      pose proof (contains_inside x (y +:+ sep) (String.concat sep (z :: l)) ""
                    (IH Hx)) as H.
      rewrite append_empty_r in H. exact H.
Qed.

Lemma get_advice_for_domain_unfold domain (w : World Args) :
  get_advice_for_domain domain w
  = let d := Py.lstrip "www." (Py.lower (Py.strip domain)) in
    match get_advice (Some d) 10 w with
    | Returns [] w' => Returns "" w'
    | Returns (a :: l) w' =>
        Returns ("[Advice for " +:+ d +:+ ": " +:+
                 String.concat "; " (map Advice.advice (a :: l)) +:+ "]") w'
    | Raises e w' => Raises e w'
    end.
Proof.
  unfold get_advice_for_domain, mbind, store_bind. cbv zeta.
  destruct (get_advice _ 10 w) as [[|a l] w'|e w']; reflexivity.
Qed.

(** Add and read back: with fewer than ten rows in the advice table,
    after [add_advice(domain, advice)] the summary
    [get_advice_for_domain(domain)] for the same domain text is the
    bracketed line, and it contains the advice text just added. *)
Theorem advice_round_trip clk domain advice (w : World Args) :
  (length (scraping_advice (db w)) < 10)%nat ->
  exists advice_id w' text,
    add_advice clk domain advice w = Returns advice_id w' /\
    get_advice_for_domain domain w' = Returns text w' /\
    Py.startswith "[Advice for " text = true /\
    Py.contains advice text = true.
Proof.
  intros Hlen.
  set (d := Py.lstrip "www." (Py.lower (Py.strip domain))).
  set (aid := next_rowid (map Advice.id (scraping_advice (db w)))).
  set (new := Advice.mk aid d advice (sql_now clk)).
  set (w' := mkWorld (mkDB (scrape_requests (db w)) (scraping_advice (db w) ++ [new]))
                     (thread_request_id w)).
  set (matching := match like_pattern (clean_domain_filter (Some d)) with
                   | Some p => List.filter (fun a => Sql.like p (Advice.domain a))
                                           (scraping_advice (db w'))
                   | None => scraping_advice (db w')
                   end).
  assert (Hnew : new ∈ matching).
  { unfold matching. simpl scraping_advice.
    destruct (Py.is_empty (Py.lower (Py.strip d))) eqn:Hb.
    - rewrite (like_pattern_blank _ Hb). apply elem_of_app. right. left.
    - rewrite (like_pattern_given _ Hb).
      apply list_elem_of_In, List.filter_In. split.
      + apply list_elem_of_In, elem_of_app. right. left.
      + cbn [Advice.domain new]. apply like_contains_complete.
        rewrite lower_idem. apply contains_lower_strip. }
  assert (Hshort : (length matching <= Z.to_nat (clamp_limit 10))%nat).
  { change (Z.to_nat (clamp_limit 10)) with 10%nat.
    assert (length (scraping_advice (db w')) <= 10)%nat
      by (simpl; rewrite length_app; simpl; lia).
    unfold matching. destruct (like_pattern (clean_domain_filter (Some d)));
      [etransitivity; [apply list_filter_length|]|]; assumption. }
  assert (Hin : new ∈ merge_sort advice_newest_first matching)
    by (rewrite merge_sort_Permutation; exact Hnew).
  assert (Hget : get_advice (Some d) 10 w'
                 = Returns (merge_sort advice_newest_first matching) w').
  { rewrite get_advice_unfold. fold matching.
    rewrite take_ge by (rewrite merge_sort_Permutation; exact Hshort).
    reflexivity. }
  exists aid, w'.
  destruct (merge_sort advice_newest_first matching) as [|a l] eqn:E;
    [inversion Hin|].
  eexists. split; [apply add_advice_unfold|].
  split; [rewrite get_advice_for_domain_unfold; fold d; cbv zeta;
          rewrite Hget; reflexivity|].
  split; [apply (startswith_app "[Advice for ")|].
  rewrite <- (append_assoc d ": "), <- (append_assoc "[Advice for ").
  apply (contains_inside advice ("[Advice for " +:+ d +:+ ": ") _ "]").
  apply contains_concat.
  apply (list_elem_of_fmap_2 Advice.advice) in Hin. exact Hin.
Qed.

(** ** Normalizing a hostname *)

Lemma lstrip_lower (chars s : string) :
  Py.lower (Py.lstrip chars (Py.lower s)) = Py.lstrip chars (Py.lower s).
Proof.
  induction s as [|c s IH]; [reflexivity|].
  cbn [Py.lower Py.lstrip].
  destruct (Py.mem_char (Py.lower_char c) chars); [exact IH|].
  cbn [Py.lower]. rewrite lower_char_idem, lower_idem. reflexivity.
Qed.

Lemma lstrip_idem (chars s : string) :
  Py.lstrip chars (Py.lstrip chars s) = Py.lstrip chars s.
Proof.
  induction s as [|c s IH]; [reflexivity|].
  cbn [Py.lstrip]. destruct (Py.mem_char c chars) eqn:E; [exact IH|].
  cbn [Py.lstrip]. rewrite E. reflexivity.
Qed.

(** Normalizing a network location twice is the same as once:
    [netloc.lower().lstrip("www.")] gives a text that the same
    expression leaves as it is. *)
Theorem normalize_netloc_idempotent (netloc : string) :
  Py.lstrip "www." (Py.lower (Py.lstrip "www." (Py.lower netloc)))
  = Py.lstrip "www." (Py.lower netloc).
Proof. rewrite lstrip_lower. apply lstrip_idem. Qed.

(** Where the stored domain is the one the specification describes: for
    a network location that is not empty and whose first character is
    neither [w], [W] nor a dot, the domain is the lowercased network
    location, nothing stripped. *)
Theorem domain_of_host_not_starting_with_w (url : string) (c : ascii) (rest : string) :
  urlparse_netloc url = Some (String c rest) ->
  Py.mem_char (Py.lower_char c) "www." = false ->
  _domain_from_url url = Py.lower (String c rest) /\
  _domain_from_url url = spec_normalized_domain (String c rest).
Proof.
  intros Hurl Hc. unfold _domain_from_url, spec_normalized_domain. rewrite Hurl.
  cbn [Py.lower Py.lstrip]. rewrite Hc. cbn [Py.is_empty].
  split; [reflexivity|].
  cbn [Py.startswith].
  destruct (Ascii.eqb_spec "w" (Py.lower_char c)) as [E|E]; [|reflexivity].
  rewrite <- E in Hc. discriminate Hc.
Qed.

(** [_domain_from_url] never gives an empty domain, nor one that begins
    with [w] or with a dot, nor one with a capital letter: a parse
    error gives "(unknown)", and a network location made only of [w],
    [W] and dots, the empty one among them, gives "(no domain)". *)
Theorem domain_from_url_shape (url : string) :
  Py.lower (_domain_from_url url) = _domain_from_url url /\
  exists c rest,
    _domain_from_url url = String c rest /\ c <> "w"%char /\ c <> "."%char.
Proof.
  unfold _domain_from_url. destruct (urlparse_netloc url) as [netloc|].
  - pose proof (lstrip_lower "www." netloc) as Hlow.
    destruct (Py.lstrip "www." (Py.lower netloc)) as [|c rest] eqn:E; simpl.
    + split; [reflexivity|]. eexists _, _. split; [reflexivity|]. split; discriminate.
    + split; [exact Hlow|]. exists c, rest. split; [reflexivity|].
      clear -E. revert E. generalize (Py.lower netloc). intros s.
      induction s as [|d s IH]; simpl; [discriminate|].
      destruct (Ascii.eqb_spec d "w") as [->|Hw]; simpl; [exact IH|].
      destruct (Ascii.eqb_spec d ".") as [->|Hdot]; simpl; [exact IH|].
      intros [= <- <-]. split; assumption.
  - split; [reflexivity|]. eexists _, _. split; [reflexivity|]. split; discriminate.
Qed.

(** ** The tool adapters *)

(** Through the adapter an outcome is always given, so a wrong address
    always fails: [mark_scrape_step_outcome] raises the not-found error
    for a request id no row has and the out-of-range error for a step
    index outside the steps of the request, with the store unchanged;
    otherwise it stores the flag on that step (and the notes, when
    given) and returns a text that begins with
    "Updated request <id>, step <index> as helpful." or
    "... as not helpful.". *)
Theorem mark_scrape_step_outcome_result clk request_id step_id led_to_data notes w :
  (lookup_request request_id w = None ->
   mark_scrape_step_outcome clk request_id step_id led_to_data notes w
   = Raises (NotFound request_id) w) /\
  (forall r,
     lookup_request request_id w = Some r ->
     ~ (0 <= step_id < Z.of_nat (length (Request.steps_json r))) ->
     mark_scrape_step_outcome clk request_id step_id led_to_data notes w
     = Raises (OutOfRange step_id request_id) w) /\
  (forall r s,
     lookup_request request_id w = Some r ->
     0 <= step_id ->
     Request.steps_json r !! Z.to_nat step_id = Some s ->
     exists w' r' s' text,
       mark_scrape_step_outcome clk request_id step_id led_to_data notes w
       = Returns text w' /\
       lookup_request request_id w' = Some r' /\
       Request.steps_json r' !! Z.to_nat step_id = Some s' /\
       Step.same_log_entry s s' /\
       Step.led_to_data s' = Some led_to_data /\
       Step.evaluator_notes s'
       = match notes with Some n => Some n | None => Step.evaluator_notes s end /\
       Py.startswith
         ("Updated request " +:+ str_int request_id +:+ ", step " +:+ str_int step_id
          +:+ " as " +:+ (if led_to_data then "helpful" else "not helpful") +:+ ".")
         text = true).
Proof.
  assert (Hgiven : Some led_to_data <> None \/ notes <> None) by (left; discriminate).
  unfold mark_scrape_step_outcome, mbind, store_bind, mret, store_ret.
  split; [|split].
  - intros Hr. rewrite (update_step_outcome_given _ _ _ _ Hgiven), Hr. reflexivity.
  - intros r Hr Hout. rewrite (update_step_outcome_given _ _ _ _ Hgiven), Hr.
    destruct (Z.ltb_spec step_id 0); [reflexivity|].
    destruct (Z.leb_spec (Z.of_nat (length (Request.steps_json r))) step_id);
      [reflexivity|lia].
  - intros r s Hr Hpos Hs.
    destruct (@update_step_outcome_effect clk request_id step_id (Some led_to_data)
                notes w r s Hr Hpos Hs Hgiven)
      as (w' & r' & s' & Hrun & Hrow & Hs' & Hsame & Hled & Hnotes & _).
    rewrite Hrun. eexists w', r', s', _. split; [reflexivity|].
    split; [exact Hrow|]. split; [exact Hs'|]. split; [exact Hsame|].
    split; [exact Hled|]. split; [exact Hnotes|].
    rewrite <- !append_assoc. apply startswith_app.
Qed.

Lemma clamp_limit_100 (limit : Z) :
  clamp_limit (Z.max 1 (Z.min limit 100)) = Z.max 1 (Z.min limit 100) /\
  (Z.to_nat (Z.max 1 (Z.min limit 100)) <= 100)%nat.
Proof. unfold clamp_limit. lia. Qed.

(** [get_scraping_advice] shows at most 100 rows, the ones [get_advice]
    returns for the limit clamped to [1, 100]: when there is none the
    text begins with "No scraping advice found."; otherwise it begins
    with "Scraping advice:" and contains the line of every row, with
    its domain and its advice text.  The store is not changed. *)
Theorem get_scraping_advice_lists domain limit (w : World Args) :
  exists rows text,
    get_advice domain (Z.max 1 (Z.min limit 100)) w = Returns rows w /\
    get_scraping_advice domain limit w = Returns text w /\
    (length rows <= 100)%nat /\
    (rows = [] -> Py.startswith "No scraping advice found." text = true) /\
    (rows <> [] ->
     Py.startswith "Scraping advice:" text = true /\
     forall a, a ∈ rows ->
               Py.contains (advice_line a) text = true /\
               Py.contains (Advice.advice a) text = true).
Proof.
  destruct (clamp_limit_100 limit) as [Hclamp Hle].
  unfold get_scraping_advice, mbind, store_bind, mret, store_ret.
  rewrite get_advice_unfold, Hclamp.
  set (rows := take _ _).
  assert (Hlen : (length rows <= 100)%nat)
    by (unfold rows; rewrite length_take; lia).
  exists rows. destruct rows as [|a l] eqn:E.
  - eexists. split; [reflexivity|]. split; [reflexivity|]. split; [exact Hlen|].
    split; [intros _; apply startswith_app|]. intros H. congruence.
  - eexists. split; [reflexivity|]. split; [reflexivity|]. split; [exact Hlen|].
    split; [discriminate|]. intros _.
    split; [apply startswith_app|].
    intros x Hx.
    assert (Hline : Py.contains (advice_line x)
                      (String.concat newline (map advice_line (a :: l))) = true)
      by (apply contains_concat, list_elem_of_fmap_2, Hx).
    split.
    + apply contains_after, contains_after, contains_after. exact Hline.
    + eapply contains_trans; [|apply contains_after, contains_after, contains_after;
                               exact Hline].
      unfold advice_line. do 5 apply contains_after. apply contains_refl.
Qed.

Lemma has_nonspace_app (a b : string) :
  has_nonspace (a +:+ b) = has_nonspace a || has_nonspace b.
Proof.
  induction a as [|c a IH]; [reflexivity|].
  rewrite append_cons. cbn [has_nonspace]. rewrite IH. apply orb_assoc.
Qed.

Lemma rstrip_ws_not_empty (s : string) :
  has_nonspace s = true -> Py.is_empty (Py.rstrip_ws s) = false.
Proof.
  induction s as [|c s IH]; [discriminate|].
  cbn [has_nonspace Py.rstrip_ws]. intros H.
  destruct (Py.isspace c) eqn:Ec.
  - simpl in H. rewrite (IH H). reflexivity.
  - rewrite andb_false_r. reflexivity.
Qed.

Lemma rstrip_ws_app (a b : string) :
  Py.is_empty (Py.rstrip_ws b) = false ->
  Py.rstrip_ws (a +:+ b) = a +:+ Py.rstrip_ws b.
Proof.
  intros Hb. induction a as [|c a IH]; [reflexivity|].
  rewrite !append_cons. cbn [Py.rstrip_ws]. rewrite IH.
  destruct (a +:+ Py.rstrip_ws b) as [|x y] eqn:E; [|reflexivity].
  destruct a; [|discriminate E].
  change ("" +:+ Py.rstrip_ws b) with (Py.rstrip_ws b) in E.
  rewrite E in Hb. discriminate Hb.
Qed.

Lemma concat_head (sep y : string) (l : list string) :
  exists rest, String.concat sep (y :: l) = y +:+ rest.
Proof.
  destruct l as [|z l].
  - exists "". symmetry. apply append_empty_r.
  - eexists. reflexivity.
Qed.

Lemma concat_two_in_a_row (sep x y : string) (before after : list string) :
  exists pre post,
    String.concat sep (before ++ x :: y :: after)
    = pre +:+ x +:+ sep +:+ y +:+ post.
Proof.
  induction before as [|a before (pre & post & IH)].
  - destruct (concat_head sep y after) as (rest & Hrest).
    exists "", rest. simpl app.
    change (String.concat sep (x :: y :: after))
      with (x +:+ sep +:+ String.concat sep (y :: after)).
    rewrite Hrest. reflexivity.
  - exists (a +:+ sep +:+ pre), post.
    assert (Hne : exists z l, before ++ x :: y :: after = z :: l)
      by (destruct before; simpl; eauto).
    destruct Hne as (z & l & Hzl).
    change ((a :: before) ++ x :: y :: after) with (a :: (before ++ x :: y :: after)).
    rewrite Hzl.
    change (String.concat sep (a :: z :: l))
      with (a +:+ sep +:+ String.concat sep (z :: l)).
    rewrite <- Hzl, IH, !append_assoc. reflexivity.
Qed.

Lemma in_a_row_here {A} (x y : A) (l : list A) : in_a_row x y (x :: y :: l).
Proof. exists [], l. reflexivity. Qed.

Lemma in_a_row_app_l {A} (x y : A) (l k : list A) :
  in_a_row x y l -> in_a_row x y (l ++ k).
Proof.
  intros (b & a & ->). exists b, (a ++ k). rewrite <- app_assoc. reflexivity.
Qed.

Lemma in_a_row_app_r {A} (x y : A) (l k : list A) :
  in_a_row x y l -> in_a_row x y (k ++ l).
Proof.
  intros (b & a & ->). exists (k ++ b), a. rewrite <- app_assoc. reflexivity.
Qed.

Lemma in_a_row_cons {A} (x y z : A) (l : list A) :
  in_a_row x y l -> in_a_row x y (z :: l).
Proof. apply (@in_a_row_app_r A x y l [z]). Qed.

(** A line that is followed by a line with visible text survives the
    final [rstrip()]. *)
Lemma line_survives_rstrip (x y : string) (lines : list string) :
  in_a_row x y lines ->
  has_nonspace y = true ->
  Py.contains x (Py.rstrip_ws (String.concat newline lines)) = true.
Proof.
  intros (before & after & ->) Hy.
  destruct (concat_two_in_a_row newline x y before after) as (pre & post & ->).
  rewrite <- (append_assoc pre x).
  rewrite rstrip_ws_app.
  - rewrite append_assoc. apply contains_app.
  - apply rstrip_ws_not_empty. rewrite !has_nonspace_app, Hy.
    rewrite orb_true_l. apply orb_true_r.
Qed.

Lemma flat_map_elem_of {A B} (f : A -> list B) (l : list A) (x : A) :
  x ∈ l -> exists before after, flat_map f l = before ++ f x ++ after.
Proof.
  intros Hx. apply list_elem_of_split in Hx as (l1 & l2 & ->).
  exists (flat_map f l1), (flat_map f l2).
  rewrite flat_map_app. reflexivity.
Qed.

Lemma search_history_at_most (domain url_contains : option string) limit
    (w : World Args) rows :
  search_history domain url_contains (Z.max 1 (Z.min limit 100)) w = Returns rows w ->
  (length rows <= 100)%nat.
Proof.
  rewrite search_history_unfold. intros [= <-].
  etransitivity; [apply list_filter_length|].
  destruct (clamp_limit_100 limit) as [-> Hle]. rewrite length_take. lia.
Qed.

(** [search_scrape_history] shows at most 100 requests, the ones
    [search_history] returns for the limit clamped to [1, 100].  When
    there is none, the text begins with "No scrape history found.".
    Otherwise, for every request returned the text contains its line
    "Request #<id>: <prompt>", and for every step of it the line with
    the step's index, tool, URL, time and the outcome label "helpful",
    "not helpful" or "unknown" that its [led_to_data] stands for,
    followed by the notes when there are any.  The store is not
    changed. *)
Theorem search_scrape_history_shows domain url_contains limit (w : World Args) :
  exists rows text,
    search_history domain url_contains (Z.max 1 (Z.min limit 100)) w
    = Returns rows w /\
    search_scrape_history domain url_contains limit w = Returns text w /\
    (length rows <= 100)%nat /\
    (rows = [] -> Py.startswith "No scrape history found." text = true) /\
    (forall r,
       r ∈ rows ->
       Py.contains ("Request #" +:+ str_int (Request.id r) +:+ ": "
                    +:+ Request.prompt r) text = true /\
       forall s, s ∈ Request.steps_json r ->
                 Py.contains (step_headline s) text = true).
Proof.
  pose proof (@search_history_at_most domain url_contains limit w) as Hmost.
  unfold search_scrape_history, mbind, store_bind, mret, store_ret.
  destruct (search_history domain url_contains (Z.max 1 (Z.min limit 100)) w)
    as [rows w'|e w'] eqn:Hsearch.
  2:{ rewrite search_history_unfold in Hsearch. discriminate Hsearch. }
  assert (w' = w) as ->
    by (rewrite search_history_unfold in Hsearch; congruence).
  exists rows. destruct rows as [|r0 rows0] eqn:Erows.
  - eexists. split; [reflexivity|]. split; [reflexivity|].
    split; [simpl; lia|]. split; [intros _; apply startswith_app|].
    intros r Hr. inversion Hr.
  - eexists. split; [reflexivity|]. split; [reflexivity|].
    split; [apply Hmost; reflexivity|]. split; [discriminate|].
    clear Erows Hmost Hsearch. remember (r0 :: rows0) as shown eqn:Eshown.
    clear Eshown r0 rows0 rows.
    intros r Hr.
    destruct (@flat_map_elem_of _ _ request_lines shown r Hr) as (before & after & ->).
    split.
    + do 3 apply contains_after.
      eapply line_survives_rstrip.
      * apply in_a_row_app_r, in_a_row_app_l. unfold request_lines. cbv zeta.
        apply in_a_row_here.
      * rewrite has_nonspace_app. reflexivity.
    + intros s Hs.
      do 3 apply contains_after.
      destruct (@flat_map_elem_of _ _ step_lines (Request.steps_json r) s Hs)
        as (sb & sa & Hsteps).
      eapply line_survives_rstrip.
      * apply in_a_row_app_r, in_a_row_app_l. unfold request_lines. cbv zeta.
        apply in_a_row_app_r, in_a_row_app_r, in_a_row_app_l.
        destruct (Request.steps_json r) as [|s0 l0] eqn:Esteps; [inversion Hs|].
        apply in_a_row_cons. rewrite Hsteps.
        apply in_a_row_app_r, in_a_row_app_l. unfold step_lines. cbv zeta.
        apply in_a_row_here.
      * rewrite has_nonspace_app. reflexivity.
Qed.

(** ** Recording how a run ended *)

Lemma output_success_true (output : string) :
  output_success (Some output) = Some true <->
  Py.is_empty output = false /\
  Forall (fun keyword => Py.contains keyword (Py.lower output) = false)
         failure_keywords.
Proof.
  clear. unfold output_success, failure_keywords. destruct (Py.is_empty output).
  - split; [discriminate|]. intros [H _]. discriminate H.
  - cbn [existsb]. rewrite !Forall_cons, Forall_nil.
    destruct (Py.contains "error" (Py.lower output)),
      (Py.contains "failed" (Py.lower output)),
      (Py.contains "timeout" (Py.lower output)),
      (Py.contains "unable" (Py.lower output)),
      (Py.contains "cannot" (Py.lower output)); simpl;
      intuition congruence.
Qed.

(** For a request that exists, [run_prompt] stores how the run ended.
    A run that finished with an output stores the output as final
    result, and success 1 exactly when the output is not empty and
    contains none of "error", "failed", "timeout", "unable", "cannot"
    in any letter case, else success 0; the report it returns says
    success all the same.  A run that raised stores the message as
    final result with success 0, and the report says failure with an
    empty output.  The steps of the request are untouched. *)
Theorem run_prompt_records clk prompt request_id w r :
  lookup_request request_id w = Some r ->
  request_id <> 0 ->
  (forall output, exists w' r',
     run_prompt clk prompt (Some request_id) (RunFinished (Some output)) w
     = Returns (mkPromptResult prompt true (Some output) None (py_now clk)) w' /\
     lookup_request request_id w' = Some r' /\
     Request.final_result r' = Some output /\
     (Request.success r' = Some 1 \/ Request.success r' = Some 0) /\
     (Request.success r' = Some 1 <->
      Py.is_empty output = false /\
      Forall (fun keyword => Py.contains keyword (Py.lower output) = false)
             failure_keywords) /\
     Request.steps_json r' = Request.steps_json r) /\
  (forall message, exists w' r',
     run_prompt clk prompt (Some request_id) (RunRaised message) w
     = Returns (mkPromptResult prompt false (Some "") (Some message) (py_now clk)) w' /\
     lookup_request request_id w' = Some r' /\
     Request.final_result r' = Some message /\
     Request.success r' = Some 0 /\
     Request.steps_json r' = Request.steps_json r).
Proof.
  intros Hr Hnz.
  assert (Hid : truthy_id (Some request_id) = Some request_id).
  { unfold truthy_id. apply Z.eqb_neq in Hnz. rewrite Hnz. reflexivity. }
  unfold run_prompt. rewrite Hid. unfold mbind, store_bind, mret, store_ret.
  split.
  - intros output.
    destruct (@update_request_final_result_effect clk request_id (Some output)
                (output_success (Some output)) w r Hr)
      as (w' & r' & Hrun & Hrow & Hfinal & Hsucc & _ & _ & _ & Hsteps & _).
    rewrite Hrun. exists w', r'. split; [reflexivity|]. split; [exact Hrow|].
    split; [exact Hfinal|].
    pose proof (output_success_true output) as Hiff.
    destruct (output_success (Some output)) as [[|]|] eqn:E.
    + rewrite Hsucc. split; [left; reflexivity|].
      split; [|exact Hsteps]. split; [intros _; apply Hiff; reflexivity|reflexivity].
    + rewrite Hsucc. split; [right; reflexivity|].
      split; [|exact Hsteps]. split; [discriminate|].
      intros H. apply Hiff in H. discriminate H.
    + unfold output_success in E. destruct (Py.is_empty output); discriminate E.
  - intros message.
    destruct (@update_request_final_result_effect clk request_id (Some message)
                (Some false) w r Hr)
      as (w' & r' & Hrun & Hrow & Hfinal & Hsucc & _ & _ & _ & Hsteps & _).
    rewrite Hrun. exists w', r'. repeat split; assumption.
Qed.

(** A whole session: a request is started, the agent's tools call the
    public functions of the store any number of times, and the run
    finishes with an output.  Whatever those calls were, the request
    started is still there under its id with its prompt, and holds the
    output as its final result. *)
Theorem session_records clk prompt ops clk' output (w : World Args) :
  exists request_id w1 w3 r,
    start_scrape_request clk prompt w = Returns request_id w1 /\
    run_prompt clk' prompt (Some request_id) (RunFinished (Some output))
               (exec_all ops w1)
    = Returns (mkPromptResult prompt true (Some output) None (py_now clk')) w3 /\
    lookup_request request_id w3 = Some r /\
    Request.prompt r = prompt /\
    Request.final_result r = Some output.
Proof.
  destruct (start_scrape_request_spec clk prompt w)
    as (request_id & w1 & Hstart & Hpos & _ & _ & Hrow & _).
  destruct (@exec_all_keeps_request ops w1 request_id _ Hrow)
    as (r2 & Hrow2 & _ & _ & Hprompt & _).
  destruct (@update_request_final_result_effect clk' request_id (Some output)
              (output_success (Some output)) (exec_all ops w1) r2 Hrow2)
    as (w3 & r3 & Hrun & Hrow3 & Hfinal & _ & _ & Hprompt3 & _).
  exists request_id, w1, w3, r3. split; [exact Hstart|].
  split.
  - unfold run_prompt, truthy_id.
    assert ((request_id =? 0) = false) as -> by (apply Z.eqb_neq; lia).
    unfold mbind, store_bind, mret, store_ret. rewrite Hrun. reflexivity.
  - split; [exact Hrow3|]. split; [|exact Hfinal].
    rewrite Hprompt3, Hprompt. reflexivity.
Qed.

(** In every store reached from a new database, a stored request is
    the one found under its id. *)
Theorem stored_request_found_by_id ops r :
  r ∈ scrape_requests (db (exec_all ops new_world)) ->
  lookup_request (Request.id r) (exec_all ops new_world) = Some r.
Proof. apply lookup_request_by_id. apply exec_all_store_ok.
       unfold store_ok, new_world. simpl. repeat split; constructor.
Qed.

End Storage.

(** * The store on concrete inputs *)

Example lower_mixed : Py.lower "WWW.Example.COM" = "www.example.com".
Proof. reflexivity. Qed.

Example like_matches_inside : Sql.like "%ample%" "Example.com" = true.
Proof. reflexivity. Qed.

Example like_matches_any_char : Sql.like "%e_ample%" "example.com" = true.
Proof. reflexivity. Qed.

Example netloc_https :
  Py.urlsplit_netloc "https://User@WWW.Example.com:8080/a/b?q=1#f"
  = Some "User@WWW.Example.com:8080".
Proof. reflexivity. Qed.

Example netloc_relative : Py.urlsplit_netloc "/just/a/path" = Some "".
Proof. reflexivity. Qed.

Example netloc_bad_bracket : Py.urlsplit_netloc "http://[::1/x" = None.
Proof. reflexivity. Qed.

Example strip_both : Py.strip "  a b  " = "a b".
Proof. reflexivity. Qed.

Example log_two_calls :
  log_all demo_dumps Py.urlsplit_netloc 1 [call_a; call_b] fresh_world
  = Returns tt logged_world.
Proof. reflexivity. Qed.

Example start_on_empty :
  start_scrape_request demo_clock "scrape foo" empty_world = Returns 1 fresh_world.
Proof. reflexivity. Qed.

Example summarize_501 :
  summarize (repeat_x 501) = repeat_x 500 +:+ "...".
Proof. vm_compute. reflexivity. Qed.

Example mark_step_0 :
  Request.steps_json <$>
    lookup_request 1
      (world_of (update_step_outcome demo_clock 1 0 (Some true) (Some "worked")
                                     logged_world))
  = Some [Step.set_evaluator_notes "worked" (Step.set_led_to_data true step_a);
          step_b].
Proof. reflexivity. Qed.

Example search_by_domain :
  search_history (Some "example") None 30 logged_world
  = Returns [logged_request] logged_world.
Proof. reflexivity. Qed.

(** No domain the store computes begins with [w] or with a dot, whatever
    the hostname was. *)
Lemma lstrip_www_first_char (s : string) (c : ascii) (t : string) :
  Py.lstrip "www." s = String c t -> c <> "w"%char /\ c <> "."%char.
Proof.
  induction s as [|d s IH]; simpl; [discriminate|].
  destruct (Ascii.eqb_spec d "w") as [->|Hw]; simpl; [exact IH|].
  destruct (Ascii.eqb_spec d ".") as [->|Hdot]; simpl; [exact IH|].
  intros [= <- <-]. split; assumption.
Qed.

(** ** The theorems at concrete inputs *)

Lemma steps_append_only_witness :
  lookup_request 1 fresh_world = Some fresh_request /\
  exists w' r',
    log_all demo_dumps Py.urlsplit_netloc 1 [call_a; call_b] fresh_world
    = Returns tt w' /\
    lookup_request 1 w' = Some r' /\
    length (Request.steps_json r') = 2%nat /\
    well_indexed (Request.steps_json r').
Proof.
  split; [reflexivity|].
  destruct (@steps_append_only string demo_dumps Py.urlsplit_netloc 1 fresh_world
              fresh_request eq_refl) as [Hlog _].
  destruct (Hlog [call_a; call_b]) as (w' & r' & Hrun & Hrow & _ & _ & _ & Hfresh).
  destruct (Hfresh eq_refl) as [Hlen Hidx].
  exists w', r'. auto.
Defined.

Lemma first_domain_wins_witness :
  lookup_request 1 fresh_world = Some fresh_request /\
  Request.steps_json fresh_request = [] /\
  Request.domain fresh_request = None /\
  exists w' r',
    log_all demo_dumps Py.urlsplit_netloc 1 [call_a; call_b] fresh_world
    = Returns tt w' /\
    lookup_request 1 w' = Some r' /\
    Request.domain r' = Some "example.com".
Proof.
  split; [reflexivity|]. split; [reflexivity|]. split; [reflexivity|].
  destruct (@first_domain_wins string demo_dumps Py.urlsplit_netloc 1 fresh_world
              fresh_request call_a [call_b] eq_refl eq_refl eq_refl)
    as (w' & r' & first & Hrun & Hrow & _ & _ & Hfirst & Hdom & _).
  exists w', r'. split; [exact Hrun|]. split; [exact Hrow|].
  rewrite Hdom, Hfirst. reflexivity.
Defined.

Lemma log_tool_call_request_resolution_witness :
  thread_request_id empty_world = None /\
  lookup_request 7 empty_world = None /\
  (exists w' request_id r,
     log_tool_call demo_dumps Py.urlsplit_netloc demo_clock "https://Example.com/a"
                   "http_request" "{}" "<html>a</html>" None empty_world
     = Returns tt w' /\
     lookup_request request_id empty_world = None /\
     lookup_request request_id w' = Some r /\
     Request.prompt r = "(auto-created from tool call)") /\
  log_tool_call demo_dumps Py.urlsplit_netloc demo_clock "https://Example.com/a"
                "http_request" "{}" "<html>a</html>" (Some 7) empty_world
  = Raises (NotFound 7) empty_world.
Proof.
  split; [reflexivity|]. split; [reflexivity|].
  destruct (@log_tool_call_request_resolution string demo_dumps Py.urlsplit_netloc
              demo_clock "https://Example.com/a" "http_request" "{}"
              "<html>a</html>" empty_world) as [Hauto Hmissing].
  split.
  - destruct (Hauto eq_refl) as (w' & request_id & r & H1 & H2 & H3 & H4 & _).
    exists w', request_id, r. auto.
  - exact (Hmissing 7 eq_refl).
Defined.

Lemma result_summary_truncated_witness :
  lookup_request 1 fresh_world = Some fresh_request /\
  exists w' s,
    log_tool_call demo_dumps Py.urlsplit_netloc demo_clock "https://Example.com/a"
                  "http_request" "{}" (repeat_x 501) (Some 1) fresh_world
    = Returns tt w' /\
    Request.steps_json <$> lookup_request 1 w' = Some [s] /\
    Step.result s = repeat_x 501 /\
    Step.result_summary s = repeat_x 500 +:+ "...".
Proof.
  split; [reflexivity|].
  destruct (@result_summary_truncated string demo_dumps Py.urlsplit_netloc
              demo_clock "https://Example.com/a" "http_request" "{}"
              (repeat_x 501) 1 fresh_world fresh_request eq_refl)
    as (w' & s & Hrun & Hstored & Hresult & Hsummary & _).
  exists w', s. split; [exact Hrun|]. split; [exact Hstored|].
  split; [exact Hresult|].
  rewrite Hsummary. vm_compute. reflexivity.
Defined.

Lemma update_step_outcome_nothing_to_do_witness :
  lookup_request 7 empty_world = None /\
  update_step_outcome demo_clock 7 0 None None empty_world = Returns tt empty_world.
Proof.
  split; [reflexivity|].
  exact (proj1 (@update_step_outcome_nothing_to_do string demo_clock 7 0
                  empty_world eq_refl)).
Defined.

Lemma update_request_final_result_missing_witness :
  lookup_request 7 logged_world = None /\
  update_request_final_result demo_clock 7 (Some "done") (Some true) logged_world
  = Returns tt logged_world.
Proof.
  split; [reflexivity|].
  exact (@update_request_final_result_missing string demo_clock 7 (Some "done")
           (Some true) logged_world eq_refl).
Defined.

Lemma update_step_outcome_failures_witness :
  lookup_request 7 logged_world = None /\
  lookup_request 1 logged_world = Some logged_request /\
  update_step_outcome demo_clock 7 0 (Some true) None logged_world
  = Raises (NotFound 7) logged_world /\
  update_step_outcome demo_clock 1 2 (Some true) None logged_world
  = Raises (OutOfRange 2 1) logged_world /\
  update_step_outcome demo_clock 1 (-1) None (Some "n") logged_world
  = Raises (OutOfRange (-1) 1) logged_world /\
  update_step_outcome demo_clock 1 2 None None logged_world
  = Returns tt logged_world.
Proof.
  split; [reflexivity|]. split; [reflexivity|].
  split; [|split; [|split]].
  - destruct (@update_step_outcome_failures string demo_clock 7 0 (Some true) None
                logged_world) as [_ H].
    destruct (H (or_introl (Some_ne_None true))) as [Hmissing _].
    exact (Hmissing eq_refl).
  - destruct (@update_step_outcome_failures string demo_clock 1 2 (Some true) None
                logged_world) as [_ H].
    destruct (H (or_introl (Some_ne_None true))) as (_ & Hout & _).
    apply (Hout logged_request eq_refl). simpl. lia.
  - destruct (@update_step_outcome_failures string demo_clock 1 (-1) None (Some "n")
                logged_world) as [_ H].
    destruct (H (or_intror (Some_ne_None "n"))) as (_ & Hout & _).
    apply (Hout logged_request eq_refl). simpl. lia.
  - destruct (@update_step_outcome_failures string demo_clock 1 2 None None
                logged_world) as [H _].
    exact (H (conj eq_refl eq_refl)).
Defined.

(** C5, as stated, fails: with both optional arguments omitted the call
    returns normally although no request has id 7, and although 5 is not
    an index into the two steps of request 1. *)
Lemma update_step_outcome_omitted_never_fails :
  lookup_request 7 logged_world = None /\
  update_step_outcome demo_clock 7 0 None None logged_world = Returns tt logged_world /\
  update_step_outcome demo_clock 7 0 None None logged_world
  <> Raises (NotFound 7) logged_world /\
  lookup_request 1 logged_world = Some logged_request /\
  length (Request.steps_json logged_request) = 2%nat /\
  update_step_outcome demo_clock 1 5 None None logged_world = Returns tt logged_world /\
  update_step_outcome demo_clock 1 5 None None logged_world
  <> Raises (OutOfRange 5 1) logged_world.
Proof. repeat split; try reflexivity; discriminate. Qed.

Lemma serial_calls_lose_nothing_witness :
  lookup_request 1 fresh_world = Some fresh_request /\
  exists r',
    steps_after demo_dumps Py.urlsplit_netloc 1 [call_a; call_b] (serial 2) fresh_world
    = Some (Request.steps_json r') /\
    length (Request.steps_json r') = 2%nat.
Proof.
  split; [reflexivity|].
  destruct (@serial_calls_lose_nothing string demo_dumps Py.urlsplit_netloc 1
              [call_a; call_b] fresh_world fresh_request eq_refl)
    as (w' & r' & _ & _ & _ & _ & Hafter & Hlen).
  exists r'. split; [exact Hafter|exact Hlen].
Defined.

(** C2, as stated, fails: when the two calls both run their SELECT
    before either runs its UPDATE, the second UPDATE writes the steps
    it read earlier plus its own step, and the step of the first call
    is gone: one step is left after two calls. *)
Lemma interleaved_calls_lose_a_step :
  lookup_request 1 fresh_world = Some fresh_request /\
  is_interleaving 2 [0; 1; 0; 1]%nat /\
  steps_after demo_dumps Py.urlsplit_netloc 1 [call_a; call_b] [0; 1; 0; 1]%nat
              fresh_world
  = Some [new_step demo_dumps Py.urlsplit_netloc demo_clock "https://other.org/b"
                   "playwright_get_content" "{}" "<html>b</html>" 0] /\
  length <$> steps_after demo_dumps Py.urlsplit_netloc 1 [call_a; call_b]
                         [0; 1; 0; 1]%nat fresh_world
  <> Some (length [call_a; call_b]).
Proof.
  split; [reflexivity|]. split.
  - unfold is_interleaving, serial. simpl. apply perm_skip, perm_swap.
  - split; [reflexivity|]. vm_compute. discriminate.
Qed.

Lemma search_history_filtered_witness :
  exists rows,
    search_history (Some " Example.COM ") None 10000 logged_world
    = Returns rows logged_world /\
    (length rows <= 500)%nat /\
    Forall (fun r => exists d, Request.domain r = Some d /\
                               Py.contains "example.com" (Py.lower d) = true) rows.
Proof.
  destruct (@search_history_filtered string (Some " Example.COM ") None 10000
              logged_world) as (rows & Hrun & Hlen & _ & _ & Hfilter).
  exists rows. split; [exact Hrun|]. split; [exact Hlen|].
  destruct (Hfilter " Example.COM " eq_refl eq_refl) as [_ Hsub].
  exact (Hsub eq_refl).
Defined.

(** C6, as stated, fails: [_] in the filter is a LIKE wildcard, so the
    filter "example_com" returns the request whose domain is
    "example.com", which does not contain "example_com". *)
Lemma search_history_wildcard_filter :
  search_history (Some "example_com") None 50 logged_world
  = Returns [logged_request] logged_world /\
  Request.domain logged_request = Some "example.com" /\
  Py.contains (Py.lower "example_com") (Py.lower "example.com") = false.
Proof. repeat split. Qed.

(** C3: [lstrip("www.")] drops every leading [w] and [.], not the
    prefix "www.": the domain stored for a URL on "www.wikipedia.org"
    is "ikipedia.org" and for one on "web.example.com" it is
    "eb.example.com", where the normalisation the specification
    describes gives "wikipedia.org" and "web.example.com"; [add_advice]
    stores "eb.dev" for "web.dev", and [get_advice_for_domain] looks up
    and prints the same. *)
Theorem lstrip_www_eats_hostname :
  _domain_from_url Py.urlsplit_netloc "https://www.wikipedia.org/wiki" = "ikipedia.org" /\
  spec_normalized_domain "www.wikipedia.org" = "wikipedia.org" /\
  _domain_from_url Py.urlsplit_netloc "https://web.example.com/a" = "eb.example.com" /\
  spec_normalized_domain "web.example.com" = "web.example.com" /\
  (Request.domain <$>
     lookup_request 1
       (world_of (log_tool_call demo_dumps Py.urlsplit_netloc demo_clock
                    "https://www.wikipedia.org/wiki" "http_request" "{}" "ok"
                    (Some 1) fresh_world))) = Some (Some "ikipedia.org") /\
  scraping_advice
    (db (world_of (add_advice demo_clock "web.dev" "use browser fetch" empty_world)))
  = [Advice.mk 1 "eb.dev" "use browser fetch" 100] /\
  get_advice_for_domain "web.dev"
    (world_of (add_advice demo_clock "web.dev" "use browser fetch" empty_world))
  = Returns "[Advice for eb.dev: use browser fetch]"
      (world_of (add_advice demo_clock "web.dev" "use browser fetch" empty_world)).
Proof. repeat split. Qed.

(** Where the two agree: a hostname whose first character is neither
    [w] nor [.] is only lowercased, by both. *)
Lemma domain_of_plain_hostname :
  _domain_from_url Py.urlsplit_netloc "https://Example.com/a" = "example.com" /\
  spec_normalized_domain "Example.com" = "example.com" /\
  _domain_from_url Py.urlsplit_netloc "https://WWW.Example.com/a" = "example.com" /\
  spec_normalized_domain "WWW.Example.com" = "example.com".
Proof. repeat split. Qed.

(** ** Further properties at concrete inputs *)

Example mark_then_search_shows_helpful :
  exists w' text,
    mark_scrape_step_outcome demo_clock 1 0 true (Some "worked") logged_world
    = Returns "Updated request 1, step 0 as helpful. Notes: worked" w' /\
    search_scrape_history demo_datetime_text (Some "example") None 30 w'
    = Returns text w' /\
    Py.contains "[0] http_request | https://Example.com/a | 2026-01-01T00:00:00 | outcome=helpful | notes=worked"
                text = true /\
    Py.contains "[1] playwright_get_content | https://other.org/b | 2026-01-01T00:00:00 | outcome=unknown"
                text = true.
Proof. eexists _, _. repeat split; vm_compute; reflexivity. Qed.

Lemma log_tool_call_ambient_witness :
  thread_request_id fresh_world = Some 1 /\
  log_tool_call demo_dumps Py.urlsplit_netloc demo_clock "https://Example.com/a"
                "http_request" "{}" "<html>a</html>" None fresh_world
  = log_tool_call demo_dumps Py.urlsplit_netloc demo_clock "https://Example.com/a"
                  "http_request" "{}" "<html>a</html>" (Some 1) fresh_world.
Proof.
  split; [reflexivity|].
  exact (proj1 (@log_tool_call_ambient string demo_dumps Py.urlsplit_netloc demo_clock
                  "https://Example.com/a" "http_request" "{}" "<html>a</html>" 1
                  fresh_world eq_refl)).
Defined.

Lemma log_tool_call_stale_current_witness :
  thread_request_id stale_world = Some 9 /\
  lookup_request 9 stale_world = None /\
  log_tool_call demo_dumps Py.urlsplit_netloc demo_clock "https://Example.com/a"
                "http_request" "{}" "<html>a</html>" None stale_world
  = Raises (NotFound 9) stale_world.
Proof.
  split; [reflexivity|]. split; [reflexivity|].
  exact (@log_tool_call_stale_current string demo_dumps Py.urlsplit_netloc demo_clock
           "https://Example.com/a" "http_request" "{}" "<html>a</html>" 9
           stale_world eq_refl eq_refl).
Defined.

Lemma log_tool_call_outside_session_witness :
  thread_request_id empty_world = None /\
  log_all_ambient demo_dumps Py.urlsplit_netloc [call_a; call_b] empty_world
  = (start_scrape_request demo_clock "(auto-created from tool call)";;
     log_all_ambient demo_dumps Py.urlsplit_netloc [call_a; call_b]) empty_world.
Proof.
  split; [reflexivity|].
  exact (@log_tool_call_outside_session string demo_dumps Py.urlsplit_netloc call_a
           [call_b] empty_world eq_refl).
Defined.

Lemma update_request_final_result_found_witness :
  lookup_request 1 logged_world = Some logged_request /\
  exists w' r',
    update_request_final_result demo_clock 1 (Some "done") None logged_world
    = Returns tt w' /\
    lookup_request 1 w' = Some r' /\
    Request.final_result r' = Some "done" /\
    Request.success r' = None /\
    Request.steps_json r' = [step_a; step_b].
Proof.
  split; [reflexivity|].
  destruct (@update_request_final_result_found string demo_clock 1 (Some "done") None
              logged_world logged_request eq_refl)
    as (w' & r' & Hrun & Hrow & Hfinal & Hsuccess & _ & _ & _ & Hsteps & _).
  exists w', r'. auto.
Defined.

Lemma update_step_outcome_found_witness :
  lookup_request 1 logged_world = Some logged_request /\
  0 <= 1 /\
  Request.steps_json logged_request !! Z.to_nat 1 = Some step_b /\
  exists w' r' s',
    update_step_outcome demo_clock 1 1 (Some false) None logged_world = Returns tt w' /\
    lookup_request 1 w' = Some r' /\
    Request.steps_json r' !! 1%nat = Some s' /\
    Step.led_to_data s' = Some false /\
    Step.evaluator_notes s' = None /\
    Request.steps_json r' !! 0%nat = Some step_a.
Proof.
  split; [reflexivity|]. split; [lia|]. split; [reflexivity|].
  destruct (@update_step_outcome_found string demo_clock 1 1 (Some false) None
              logged_world logged_request step_b eq_refl ltac:(lia) eq_refl
              (or_introl (Some_ne_None false)))
    as (w' & r' & s' & Hrun & Hrow & Hs' & _ & Hled & Hnotes & _ & Hother & _).
  exists w', r', s'. split; [exact Hrun|]. split; [exact Hrow|].
  split; [exact Hs'|]. split; [exact Hled|]. split; [exact Hnotes|].
  rewrite (Hother 0%nat); [reflexivity|discriminate].
Defined.

Lemma search_history_all_witness :
  (length (scrape_requests (db logged_world)) <= Z.to_nat (clamp_limit 50))%nat /\
  exists rows,
    search_history None None 50 logged_world = Returns rows logged_world /\
    rows ≡ₚ [logged_request].
Proof.
  split; [vm_compute; lia|].
  exact (@search_history_all string 50 logged_world ltac:(vm_compute; lia)).
Defined.

Lemma search_history_finds_domain_witness :
  logged_request ∈ scrape_requests (db logged_world) /\
  Request.domain logged_request = Some "example.com" /\
  Py.is_empty (Py.lower (Py.strip " AMPLE ")) = false /\
  Py.contains (Py.lower (Py.strip " AMPLE ")) (Py.lower "example.com") = true /\
  exists rows,
    search_history (Some " AMPLE ") None 5 logged_world = Returns rows logged_world /\
    logged_request ∈ rows.
Proof.
  assert (Hin : logged_request ∈ scrape_requests (db logged_world))
    by (simpl; left).
  split; [exact Hin|]. split; [reflexivity|]. split; [reflexivity|].
  split; [reflexivity|].
  exact (@search_history_finds_domain string " AMPLE " 5 logged_world logged_request
           "example.com" Hin eq_refl eq_refl eq_refl ltac:(vm_compute; lia)).
Defined.

Lemma search_history_finds_own_domain_witness :
  logged_request ∈ scrape_requests (db logged_world) /\
  Request.domain logged_request = Some "example.com" /\
  exists rows,
    search_history (Some "example.com") None 5 logged_world
    = Returns rows logged_world /\
    logged_request ∈ rows.
Proof.
  assert (Hin : logged_request ∈ scrape_requests (db logged_world))
    by (simpl; left).
  split; [exact Hin|]. split; [reflexivity|].
  exact (@search_history_finds_own_domain string 5 logged_world logged_request
           "example.com" Hin eq_refl eq_refl ltac:(vm_compute; lia)).
Defined.

Lemma advice_round_trip_witness :
  (length (scraping_advice (db empty_world)) < 10)%nat /\
  exists advice_id w' text,
    add_advice demo_clock "Example.com" "use browser fetch" empty_world
    = Returns advice_id w' /\
    get_advice_for_domain "Example.com" w' = Returns text w' /\
    Py.contains "use browser fetch" text = true.
Proof.
  split; [simpl; lia|].
  destruct (@advice_round_trip string demo_clock "Example.com" "use browser fetch"
              empty_world ltac:(simpl; lia))
    as (advice_id & w' & text & Hadd & Hget & _ & Hin).
  exists advice_id, w', text. auto.
Defined.

Lemma domain_of_host_not_starting_with_w_witness :
  Py.urlsplit_netloc "https://Example.com/a" = Some "Example.com" /\
  Py.mem_char (Py.lower_char "E") "www." = false /\
  _domain_from_url Py.urlsplit_netloc "https://Example.com/a" = "example.com".
Proof.
  split; [reflexivity|]. split; [reflexivity|].
  exact (proj1 (@domain_of_host_not_starting_with_w Py.urlsplit_netloc
                  "https://Example.com/a" "E" "xample.com" eq_refl eq_refl)).
Defined.

Lemma run_prompt_records_witness :
  lookup_request 1 logged_world = Some logged_request /\
  1 <> 0 /\
  exists w' r',
    run_prompt demo_clock "scrape foo" (Some 1)
               (RunFinished (Some "Unable to load the page")) logged_world
    = Returns (mkPromptResult "scrape foo" true (Some "Unable to load the page") None
                              "2026-01-01T00:00:00") w' /\
    lookup_request 1 w' = Some r' /\
    Request.final_result r' = Some "Unable to load the page" /\
    Request.success r' = Some 0.
Proof.
  split; [reflexivity|]. split; [discriminate|].
  destruct (@run_prompt_records string demo_clock "scrape foo" 1 logged_world
              logged_request eq_refl ltac:(discriminate)) as [Hfinished _].
  destruct (Hfinished "Unable to load the page")
    as (w' & r' & Hrun & Hrow & Hfinal & [Hone|Hzero] & Hiff & _).
  - exfalso. apply Hiff in Hone as [_ Hkeywords].
    apply Forall_forall with (x := "unable") in Hkeywords;
      [discriminate Hkeywords|].
    unfold failure_keywords. do 3 right. left.
  - exists w', r'. auto.
Defined.

Lemma stored_request_found_by_id_witness :
  fresh_request
    ∈ scrape_requests
        (db (exec_all demo_dumps Py.urlsplit_netloc
                      [OpStart demo_clock "scrape foo"] new_world)) /\
  lookup_request (Request.id fresh_request)
    (exec_all demo_dumps Py.urlsplit_netloc [OpStart demo_clock "scrape foo"] new_world)
  = Some fresh_request.
Proof.
  assert (Hin : fresh_request
                  ∈ scrape_requests
                      (db (exec_all demo_dumps Py.urlsplit_netloc
                                    [OpStart demo_clock "scrape foo"] new_world)))
    by (simpl; left).
  split; [exact Hin|].
  exact (@stored_request_found_by_id string demo_dumps Py.urlsplit_netloc
           [OpStart demo_clock "scrape foo"] fresh_request Hin).
Defined.
